(** * Account service over a path-addressed store

    A shallow embedding of package [auth] (the account service) of the
    tornado-nginx-go-backend repository, together with what it needs of
    packages [storage] and [models].

    Go strings are byte strings: [string] here, whose [String.length] is
    Go's [len].  A Go function returning [(T, error)] with the zero value
    of [T] next to every non-nil error is a [result T]; a function
    returning only [error] is an [option error] ([None] is Go's [nil]).
    The storage backend is reached through an interface, so the service's
    methods are programs over the five interface calls, and a backend is
    a handler interpreting those calls on its own state. *)

From stdpp Require Import base strings gmap.
From Stdlib Require Import String Ascii List Lia.
Import ListNotations.

Local Open Scope string_scope.

(** ** Go values *)

(** Go [error] values the service sees or builds.  [ErrNotFound] is the
    sentinel [storage.ErrNotFound], compared by identity in the source;
    [ErrOpaque] is any other error value made by [storage] or [models];
    [Errorf msg] is [fmt.Errorf(msg)] and [Wrapf msg e] is
    [fmt.Errorf(msg + ": %w", e)]. *)
Inductive error : Type :=
| ErrNotFound
| ErrOpaque (msg : string)
| Errorf (msg : string)
| Wrapf (msg : string) (e : error).

Inductive result (A : Type) : Type :=
| Ok (a : A)
| Err (e : error).
Arguments Ok {A} a.
Arguments Err {A} e.

(** [err == storage.ErrNotFound] *)
Definition is_ErrNotFound (e : error) : bool :=
  match e with
  | ErrNotFound => true
  | _ => false
  end.

(** The dynamic value held by [Item.Data], of Go type [interface{}]: the
    service only ever asks whether it is a string. *)
Inductive data : Type :=
| VString (s : string)
| VOther (repr : string).

(** [item.Data.(string)] *)
Definition as_string (d : data) : option string :=
  match d with
  | VString s => Some s
  | VOther _ => None
  end.

(** A path is a [[]string] of segments. *)
Abbreviation path := (list string).

(** Modelled from the spec: [storage.Item], the Stored Item of section 3,
    "pairs the resolved path with its payload".  The service reads only
    its [Data] field. *)
Record Item : Type := mkItem { Path : path; Data : data }.

(** ** The storage interface *)

(** The methods of [storage.Storage] used by the service, indexed by
    what they return: [GetFile] a pair of an item pointer and an error,
    either of which may be nil, the others an [error]. *)
Inductive call : Type -> Type :=
| CreateDir (p : path) : call (option error)
| CreateFile (p : path) (d : data) : call (option error)
| GetFile (p : path) : call (option Item * option error)
| UpdateFile (p : path) (d : data) : call (option error)
| DeleteFile (p : path) : call (option error).

(** A service method: a finite tree of interface calls ending in the
    returned value. *)
Inductive prog (A : Type) : Type :=
| Ret (a : A)
| Do {R : Type} (c : call R) (k : R -> prog A).
Arguments Ret {A} a.
Arguments Do {A R} c k.

Fixpoint bind {A B : Type} (m : prog A) (f : A -> prog B) : prog B :=
  match m with
  | Ret a => f a
  | Do c k => Do c (fun r => bind (k r) f)
  end.

Definition invoke {R : Type} (c : call R) : prog R := Do c Ret.

Declare Scope prog_scope.
Delimit Scope prog_scope with prog.
Notation "'let*' x ':=' m 'in' k" := (bind m (fun x => k))
  (at level 10, x name, m at level 100, k at level 200) : prog_scope.
Notation "'let*' ( x , y ) ':=' m 'in' k" := (bind m (fun '(x, y) => k))
  (at level 10, x name, y name, m at level 100, k at level 200) : prog_scope.
Local Open Scope prog_scope.

(** A backend: a state and the effect of each call on it. *)
Record Storage : Type := mkStorage {
  state : Type;
  handle : forall R : Type, call R -> state -> R * state
}.
Arguments handle S {R} c st : rename.

Fixpoint run (S : Storage) {A : Type} (m : prog A) (s : state S) : A * state S :=
  match m with
  | Ret a => (a, s)
  | Do c k => let (r, s') := handle S c s in run S (k r) s'
  end.

(** Programs that call nothing but [GetFile], whatever the answers. *)
Inductive reads_only {A : Type} : prog A -> Prop :=
| reads_only_Ret (a : A) : reads_only (Ret a)
| reads_only_Do (p : path) (k : option Item * option error -> prog A) :
    (forall r, reads_only (k r)) -> reads_only (Do (GetFile p) k).

(** ** Package [models] *)

(** Modelled from the spec: [models.User], absent from the sources at
    hand.  Section 6 gives its field set: email, password hash,
    confirmed flag, device-binding token. *)
Record User : Type := mkUser {
  Email : string;
  Password : string;
  Confirmed : bool;
  Dongle : string
}.

(** What [models] computes outside the record itself: construction and
    validation of a new account, the password hash and its check, and
    the serialized form.  They are parameters of the service. *)
Class Models : Type := {
  NewUser : string -> string -> result User;
  HashPassword : string -> result string;
  CheckPasswordHash : string -> string -> bool;
  ToJSON : User -> result string;
  UserFromJSON : string -> result User
}.

(** Modelled from the spec: the accessors and mutators of [models.User]
    (section 3): confirmation sets the flag, password update replaces
    the hash, device-binding update replaces the token. *)
Definition GetConfirmed (u : User) : bool := Confirmed u.

Definition SetConfirmed (u : User) : User :=
  {| Email := Email u; Password := Password u; Confirmed := true; Dongle := Dongle u |}.

Definition GetDongle (u : User) : string := Dongle u.

Definition SetDongle (dongle : string) (u : User) : User :=
  {| Email := Email u; Password := Password u; Confirmed := Confirmed u; Dongle := dongle |}.

Definition SetPassword `{Models} (password : string) (u : User) : result User :=
  match HashPassword password with
  | Ok h => Ok {| Email := Email u; Password := h; Confirmed := Confirmed u; Dongle := Dongle u |}
  | Err e => Err e
  end.

Definition Authenticate `{Models} (password : string) (u : User) : bool :=
  CheckPasswordHash password (Password u).

(** ** Package [auth] *)

Definition UserDir : string := "users".
Definition UserDirPath : string := "home/users".

Definition getUserPath (email : string) : path := ["home"; UserDir; email].

Definition UserExists (email : string) : prog (result bool) :=
  let path := getUserPath email in
  let* (item, err) := invoke (GetFile path) in
  match err with
  | Some e =>
      if is_ErrNotFound e then Ret (Ok false)
      else Ret (Err e)
  | None =>
      Ret (Ok (match item with Some _ => true | None => false end))
  end.

Definition GetUser `{Models} (email : string) : prog (result User) :=
  let path := getUserPath email in
  let* (item, err) := invoke (GetFile path) in
  match err with
  | Some e => Ret (Err e)
  | None =>
      match item with
      | None => Ret (Err (Errorf "user not found"))
      | Some item =>
          match as_string (Data item) with
          | None => Ret (Err (Errorf "invalid user data format"))
          | Some dataStr =>
              match UserFromJSON dataStr with
              | Err e => Ret (Err e)
              | Ok user => Ret (Ok user)
              end
          end
      end
  end.

Definition CreateUser `{Models} (email password : string) : prog (option error) :=
  let* r := UserExists email in
  match r with
  | Err e => Ret (Some (Wrapf "error checking user existence" e))
  | Ok true => Ret (Some (Errorf "user already exists"))
  | Ok false =>
      match NewUser email password with
      | Err e => Ret (Some (Wrapf "error creating user model" e))
      | Ok user =>
          let homeDir := ["home"] in
          let* err := invoke (CreateDir homeDir) in
          match err with
          | Some e => Ret (Some (Wrapf "error creating home directory" e))
          | None =>
              let parentPath := ["home"; UserDir] in
              let* err := invoke (CreateDir parentPath) in
              match err with
              | Some e => Ret (Some (Wrapf "error creating users directory" e))
              | None =>
                  let path := getUserPath email in
                  match ToJSON user with
                  | Err e => Ret (Some (Wrapf "error serializing user data" e))
                  | Ok userData => invoke (CreateFile path (VString userData))
                  end
              end
          end
      end
  end.

Definition AuthenticateUser `{Models} (email password : string) : prog (result bool) :=
  let* r := GetUser email in
  match r with
  | Err e => Ret (Err e)
  | Ok user =>
      if negb (GetConfirmed user) then Ret (Err (Errorf "user not confirmed"))
      else Ret (Ok (Authenticate password user))
  end.

Definition setUser `{Models} (user : User) : prog (option error) :=
  let path := getUserPath (Email user) in
  match ToJSON user with
  | Err e => Ret (Some e)
  | Ok userData => invoke (UpdateFile path (VString userData))
  end.

Definition UpdatePassword `{Models} (email newPassword : string) : prog (option error) :=
  let* r := GetUser email in
  match r with
  | Err e => Ret (Some e)
  | Ok user =>
      match SetPassword newPassword user with
      | Err e => Ret (Some e)
      | Ok user => setUser user
      end
  end.

Definition SetUserDongle `{Models} (email dongle : string) : prog (option error) :=
  let* r := GetUser email in
  match r with
  | Err e => Ret (Some e)
  | Ok user => setUser (SetDongle dongle user)
  end.

Definition GetUserDongle `{Models} (email : string) : prog (result string) :=
  let* r := GetUser email in
  match r with
  | Err e => Ret (Err e)
  | Ok user => Ret (Ok (GetDongle user))
  end.

Definition ConfirmUser `{Models} (email : string) : prog (option error) :=
  let* r := GetUser email in
  match r with
  | Err e => Ret (Some e)
  | Ok user => setUser (SetConfirmed user)
  end.

Definition DeleteUser (email : string) : prog (option error) :=
  let* r := UserExists email in
  match r with
  | Err e => Ret (Some e)
  | Ok false => Ret (Some (Errorf "user does not exist"))
  | Ok true =>
      let path := getUserPath email in
      invoke (DeleteFile path)
  end.

(** [strings.Contains(s, substr)]: [substr] occurs in [s]. *)
Definition Contains (s substr : string) : bool :=
  match String.index 0 substr s with
  | Some _ => true
  | None => false
  end.

(** ValidateEmail performs basic email validation *)
Definition ValidateEmail (email : string) : bool :=
  Contains email "@" && (3 <? String.length email)%nat.

(** ** A reference backend *)

(** Modelled from the spec: the Path Store of sections 3 and 4.1, of
    which the sources at hand hold only the calls made to it.  A path
    resolves to at most one node, a directory or a file with a payload. *)
Inductive node : Type :=
| Dir
| File (payload : data).

(** The signature of [GetFile] leaves two ways to report that no file is
    at the path: no item and no error, or the [ErrNotFound] sentinel.
    [UserExists] provides for both, so the reference backend takes the
    convention as a parameter. *)
Inductive absence : Type :=
| AbsentAsNil
| AbsentAsErrNotFound.

Definition report_absent (a : absence) : option Item * option error :=
  match a with
  | AbsentAsNil => (None, None)
  | AbsentAsErrNotFound => (None, Some ErrNotFound)
  end.

Definition ErrAlreadyExists : error := ErrOpaque "already exists".
Definition ErrParentMissing : error := ErrOpaque "parent missing".

(** The proper, non-empty prefixes of a path: its parent chain. *)
Fixpoint ancestors (p : path) : list path :=
  match p with
  | [] => []
  | x :: q =>
      match q with
      | [] => []
      | _ :: _ => [x] :: map (cons x) (ancestors q)
      end
  end.

Definition is_dir (t : gmap path node) (p : path) : bool :=
  match t !! p with
  | Some Dir => true
  | _ => false
  end.

(** Modelled from the spec: [createDirectory] "succeeds if the directory
    now exists (whether newly created or already present)"; a file in
    the way is reported as [AlreadyExists]. *)
Definition createDirectory (p : path) (t : gmap path node) : option error * gmap path node :=
  match t !! p with
  | Some Dir => (None, t)
  | Some (File _) => (Some ErrAlreadyExists, t)
  | None => (None, <[p := Dir]> t)
  end.

(** Modelled from the spec: [createFile] "fails with AlreadyExists if a
    node already occupies that path", "fails with ParentMissing if any
    ancestor directory does not exist", "otherwise stores the payload". *)
Definition createFile (p : path) (d : data) (t : gmap path node) : option error * gmap path node :=
  match t !! p with
  | Some _ => (Some ErrAlreadyExists, t)
  | None =>
      if forallb (is_dir t) (ancestors p) then (None, <[p := File d]> t)
      else (Some ErrParentMissing, t)
  end.

(** Modelled from the spec: [getFile] "returns the Stored Item on
    success" and the NotFound outcome "if no file exists at that path". *)
Definition getFile (a : absence) (p : path) (t : gmap path node) : option Item * option error :=
  match t !! p with
  | Some (File d) => (Some (mkItem p d), None)
  | _ => report_absent a
  end.

(** Modelled from the spec: [updateFile] "fails with NotFound if no file
    exists at that path; otherwise atomically replaces the payload". *)
Definition updateFile (p : path) (d : data) (t : gmap path node) : option error * gmap path node :=
  match t !! p with
  | Some (File _) => (None, <[p := File d]> t)
  | _ => (Some ErrNotFound, t)
  end.

(** Modelled from the spec: [deleteFile] "fails with NotFound if no file
    exists at that path; otherwise removes it". *)
Definition deleteFile (p : path) (t : gmap path node) : option error * gmap path node :=
  match t !! p with
  | Some (File _) => (None, delete p t)
  | _ => (Some ErrNotFound, t)
  end.

Definition PathStore (a : absence) : Storage :=
  {| state := gmap path node;
     handle := fun R (c : call R) =>
       match c in call R0 return gmap path node -> R0 * gmap path node with
       | CreateDir p => createDirectory p
       | CreateFile p d => createFile p d
       | GetFile p => fun t => (getFile a p t, t)
       | UpdateFile p d => updateFile p d
       | DeleteFile p => deleteFile p
       end |}.

(** ** A reference instance of [models] *)

(** A record format standing for the JSON of [models]: the four fields
    under their keys, string contents with quote and backslash escaped. *)
Definition dquote : ascii := "034"%char.

Definition needs_escape (c : ascii) : bool :=
  Ascii.eqb c dquote || Ascii.eqb c "\"%char.

Fixpoint escape (s : string) : string :=
  match s with
  | EmptyString => EmptyString
  | String c r =>
      if needs_escape c then String "\"%char (String c (escape r))
      else String c (escape r)
  end.

(** Reads string contents up to the closing quote; yields the contents
    and what follows the quote. *)
Fixpoint unescape (s : string) : option (string * string) :=
  match s with
  | EmptyString => None
  | String c r =>
      if Ascii.eqb c dquote then Some (EmptyString, r)
      else if Ascii.eqb c "\"%char then
        match r with
        | EmptyString => None
        | String d r' =>
            match unescape r' with
            | Some (f, rest) => Some (String d f, rest)
            | None => None
            end
        end
      else
        match unescape r with
        | Some (f, rest) => Some (String c f, rest)
        | None => None
        end
  end.

(** Strips the literal [lit] from the front of [s]. *)
Fixpoint expect (lit s : string) : option string :=
  match lit with
  | EmptyString => Some s
  | String c lit' =>
      match s with
      | EmptyString => None
      | String d s' => if Ascii.eqb c d then expect lit' s' else None
      end
  end.

Definition quote : string := String dquote EmptyString.

Definition key (k : string) : string := quote ++ k ++ quote ++ ":".

Definition ref_ToJSON (u : User) : result string :=
  Ok ("{" ++ key "email" ++ quote ++ escape (Email u) ++ quote ++ ","
          ++ key "password" ++ quote ++ escape (Password u) ++ quote ++ ","
          ++ key "dongle" ++ quote ++ escape (Dongle u) ++ quote ++ ","
          ++ key "confirmed" ++ (if Confirmed u then "true" else "false") ++ "}").

Definition ErrMalformed : error := ErrOpaque "malformed user record".

Definition ref_UserFromJSON (j : string) : result User :=
  match expect ("{" ++ key "email" ++ quote) j with
  | None => Err ErrMalformed
  | Some j =>
  match unescape j with
  | None => Err ErrMalformed
  | Some (email, j) =>
  match expect ("," ++ key "password" ++ quote) j with
  | None => Err ErrMalformed
  | Some j =>
  match unescape j with
  | None => Err ErrMalformed
  | Some (password, j) =>
  match expect ("," ++ key "dongle" ++ quote) j with
  | None => Err ErrMalformed
  | Some j =>
  match unescape j with
  | None => Err ErrMalformed
  | Some (dongle, j) =>
  match expect ("," ++ key "confirmed") j with
  | None => Err ErrMalformed
  | Some j =>
      if String.eqb j "true}" then Ok (mkUser email password true dongle)
      else if String.eqb j "false}" then Ok (mkUser email password false dongle)
      else Err ErrMalformed
  end end end end end end end.

(** An idealised keyed hash: the digest of a password is the password
    behind a marker, so that a digest verifies exactly one password. *)
Definition ref_HashPassword (password : string) : result string :=
  if String.eqb password EmptyString then Err (ErrOpaque "empty password")
  else Ok ("$ref$" ++ password).

Definition ref_CheckPasswordHash (password hash : string) : bool :=
  String.eqb hash ("$ref$" ++ password).

Definition ref_NewUser (email password : string) : result User :=
  if ValidateEmail email then
    match ref_HashPassword password with
    | Ok h => Ok (mkUser email h false EmptyString)
    | Err e => Err e
    end
  else Err (ErrOpaque "invalid email").

Definition RefModels : Models :=
  {| NewUser := ref_NewUser;
     HashPassword := ref_HashPassword;
     CheckPasswordHash := ref_CheckPasswordHash;
     ToJSON := ref_ToJSON;
     UserFromJSON := ref_UserFromJSON |}.

(** ** Vocabulary of the statements *)

(** What [GetFile] answers at a path, the backend's state set aside. *)
Definition fetch (S : Storage) (p : path) (s : state S) : option Item * option error :=
  fst (handle S (GetFile p) s).

(** The NotFound outcome of [GetFile], in either of its two encodings. *)
Definition not_found (r : option Item * option error) : Prop :=
  snd r = Some ErrNotFound \/ r = (None, None).

Definition read_only_get (S : Storage) : Prop :=
  forall p s, snd (handle S (GetFile p) s) = s.

(** Modelled from the spec: the Path Store contract of sections 4.1 and 5
    as far as the service relies on it.  Reads do not write; a completed
    [createFile], [updateFile] or [deleteFile] is seen by the next read
    of that path; no call disturbs the files at other paths, and a call
    that fails disturbs none. *)
Class StorageLaws (S : Storage) : Prop := {
  get_read_only : read_only_get S;
  create_file_get : forall p d s s',
    handle S (CreateFile p d) s = (None, s') ->
    exists it, fetch S p s' = (Some it, None) /\ Data it = d;
  update_file_get : forall p d s s',
    handle S (UpdateFile p d) s = (None, s') ->
    exists it, fetch S p s' = (Some it, None) /\ Data it = d;
  delete_file_get : forall p s s',
    handle S (DeleteFile p) s = (None, s') -> not_found (fetch S p s');
  create_dir_frame : forall p s q,
    fetch S q (snd (handle S (CreateDir p) s)) = fetch S q s;
  create_file_frame : forall p d s q, q <> p ->
    fetch S q (snd (handle S (CreateFile p d) s)) = fetch S q s;
  update_file_frame : forall p d s q, q <> p ->
    fetch S q (snd (handle S (UpdateFile p d) s)) = fetch S q s;
  delete_file_frame : forall p s q, q <> p ->
    fetch S q (snd (handle S (DeleteFile p) s)) = fetch S q s;
  create_file_fail : forall p d s e q,
    fst (handle S (CreateFile p d) s) = Some e ->
    fetch S q (snd (handle S (CreateFile p d) s)) = fetch S q s;
  update_file_fail : forall p d s e q,
    fst (handle S (UpdateFile p d) s) = Some e ->
    fetch S q (snd (handle S (UpdateFile p d) s)) = fetch S q s;
  delete_file_fail : forall p s e q,
    fst (handle S (DeleteFile p) s) = Some e ->
    fetch S q (snd (handle S (DeleteFile p) s)) = fetch S q s
}.

(** Modelled from the spec: what the service relies on from [models].
    The serialized record reads back as the account it was made from
    (section 6: the format "must round-trip every field exactly"); a
    hash verifies the password it was made from and no other; a new
    account carries the given email, is unconfirmed and holds a hash of
    the given password (section 4.2). *)
Class ModelLaws (M : Models) : Prop := {
  json_round_trip : forall u j, ToJSON u = Ok j -> UserFromJSON j = Ok u;
  hash_binds : forall password h, HashPassword password = Ok h ->
    forall q, CheckPasswordHash q h = true <-> q = password;
  new_user_fields : forall email password u, NewUser email password = Ok u ->
    Email u = email /\ Confirmed u = false /\ CheckPasswordHash password (Password u) = true
}.

(** The account [GetUser] loads for [email] in state [s]. *)
Definition load `{Models} (S : Storage) (email : string) (s : state S) : result User :=
  fst (run S (GetUser email) s).

(** Every readable record is filed under its own email. *)
Definition well_formed `{Models} (S : Storage) (s : state S) : Prop :=
  forall email u, load S email s = Ok u -> Email u = email.

Definition confirmed_at `{Models} (S : Storage) (email : string) (s : state S) : Prop :=
  exists u, load S email s = Ok u /\ Confirmed u = true.

(** One call of the consumer-facing surface (section 6). *)
Inductive request : Type :=
| ReqUserExists (email : string)
| ReqGetUser (email : string)
| ReqCreateUser (email password : string)
| ReqAuthenticateUser (email password : string)
| ReqUpdatePassword (email newPassword : string)
| ReqSetUserDongle (email dongle : string)
| ReqGetUserDongle (email : string)
| ReqConfirmUser (email : string)
| ReqDeleteUser (email : string).

(** The state a request leaves behind, its answer dropped. *)
Definition serve `{Models} (S : Storage) (r : request) (s : state S) : state S :=
  match r with
  | ReqUserExists e => snd (run S (UserExists e) s)
  | ReqGetUser e => snd (run S (GetUser e) s)
  | ReqCreateUser e pw => snd (run S (CreateUser e pw) s)
  | ReqAuthenticateUser e pw => snd (run S (AuthenticateUser e pw) s)
  | ReqUpdatePassword e pw => snd (run S (UpdatePassword e pw) s)
  | ReqSetUserDongle e d => snd (run S (SetUserDongle e d) s)
  | ReqGetUserDongle e => snd (run S (GetUserDongle e) s)
  | ReqConfirmUser e => snd (run S (ConfirmUser e) s)
  | ReqDeleteUser e => snd (run S (DeleteUser e) s)
  end.

Definition serve_all `{Models} (S : Storage) (rs : list request) (s : state S) : state S :=
  fold_left (fun s r => serve S r s) rs s.

(** Occurrences of the byte [c] in [s]. *)
Fixpoint count_byte (c : ascii) (s : string) : nat :=
  match s with
  | EmptyString => 0
  | String d r => (if Ascii.eqb c d then 1 else 0) + count_byte c r
  end.

(** Sample states of the reference backend, reached through the service
    itself from the empty store. *)
Definition fresh_account (a : absence) : state (PathStore a) :=
  @serve_all RefModels (PathStore a) [ReqCreateUser "u@x.com" "secret1"] ∅.

Definition confirmed_account (a : absence) : state (PathStore a) :=
  @serve_all RefModels (PathStore a)
    [ReqCreateUser "u@x.com" "secret1"; ReqConfirmUser "u@x.com"] ∅.

(** The scenario of section 8, from the empty store: the answers of its
    nine calls in order. *)
Definition scenario `{Models} (S : Storage) (s0 : state S) :=
  let '(r1, s1) := run S (CreateUser "u@x.com" "secret1") s0 in
  let '(r2, s2) := run S (ConfirmUser "u@x.com") s1 in
  let '(r3, s3) := run S (AuthenticateUser "u@x.com" "secret1") s2 in
  let '(r4, s4) := run S (UpdatePassword "u@x.com" "secret2") s3 in
  let '(r5, s5) := run S (AuthenticateUser "u@x.com" "secret1") s4 in
  let '(r6, s6) := run S (AuthenticateUser "u@x.com" "secret2") s5 in
  let '(r7, s7) := run S (DeleteUser "u@x.com") s6 in
  let '(r8, s8) := run S (UserExists "u@x.com") s7 in
  let '(r9, _) := run S (GetUser "u@x.com") s8 in
  (r1, r2, r3, r4, r5, r6, r7, r8, r9).

(** What [UserExists] and [GetUser] make of one answer of [GetFile]. *)
Definition exists_of (r : option Item * option error) : result bool :=
  match r with
  | (_, Some e) => if is_ErrNotFound e then Ok false else Err e
  | (Some _, None) => Ok true
  | (None, None) => Ok false
  end.

Definition decode `{Models} (r : option Item * option error) : result User :=
  match r with
  | (_, Some e) => Err e
  | (None, None) => Err (Errorf "user not found")
  | (Some item, None) =>
      match as_string (Data item) with
      | None => Err (Errorf "invalid user data format")
      | Some dataStr => UserFromJSON dataStr
      end
  end.

(** The shape [UpdatePassword], [SetUserDongle] and [ConfirmUser] share:
    load the account, change it in memory, write it back. *)
Definition update_with `{Models} (f : User -> result User) (email : string) : prog (option error) :=
  let* r := GetUser email in
  match r with
  | Err e => Ret (Some e)
  | Ok user =>
      match f user with
      | Err e => Ret (Some e)
      | Ok user => setUser user
      end
  end.

(** A change of the in-memory account that keeps its email and does not
    take confirmation back. *)
Definition keeps_identity (f : User -> result User) : Prop :=
  forall u u', f u = Ok u' ->
    Email u' = Email u /\ (Confirmed u = true -> Confirmed u' = true).

(** After a request an account is as before, or is a stored account
    under its own email that is confirmed if it was, or has just been
    deleted. *)
Definition account_kept `{Models} (S : Storage) (e : string) (r : request)
    (s s' : state S) : Prop :=
  load S e s' = load S e s \/
  (exists u', load S e s' = Ok u' /\ Email u' = e /\
     forall u, load S e s = Ok u -> Confirmed u = true -> Confirmed u' = true) \/
  (r = ReqDeleteUser e /\ forall u, load S e s' <> Ok u).

(** ** Calls issued *)

(** One call made to the backend, whatever it returns. *)
Inductive issued : Type :=
| Issued {R : Type} (c : call R).

(** The calls a program makes on backend [S] from state [s], in order. *)
Fixpoint trace (S : Storage) {A : Type} (m : prog A) (s : state S) : list issued :=
  match m with
  | Ret _ => []
  | Do c k => Issued c :: (let (r, s') := handle S c s in trace S (k r) s')
  end.

(** The email a request is about. *)
Definition target (r : request) : string :=
  match r with
  | ReqUserExists e | ReqGetUser e | ReqCreateUser e _ | ReqAuthenticateUser e _
  | ReqUpdatePassword e _ | ReqSetUserDongle e _ | ReqGetUserDongle e
  | ReqConfirmUser e | ReqDeleteUser e => e
  end.

(** A state of the reference backend in which the file of "a@x.com"
    holds a record whose email field is "b@y.com", beside the account of
    "b@y.com" itself. *)
Definition payload_of (u : User) : data :=
  match ref_ToJSON u with
  | Ok j => VString j
  | Err _ => VOther EmptyString
  end.

Definition misfiled_store (a : absence) : state (PathStore a) :=
  snd (createFile (getUserPath "a@x.com")
         (payload_of (mkUser "b@y.com" "$ref$secret0" false "old-token"))
         (@serve_all RefModels (PathStore a) [ReqCreateUser "b@y.com" "secret1"] ∅)).

(** A state of the reference backend in which the file of "u@x.com"
    holds a payload that is not a string. *)
Definition unreadable_store (a : absence) : state (PathStore a) :=
  snd (createFile (getUserPath "u@x.com") (VOther "blob")
         (@serve_all RefModels (PathStore a) [ReqCreateUser "v@y.com" "secret1"] ∅)).

(** ** Package [main]: the current user *)

(** [s[i] == c], false out of range. *)
Definition byte_is (s : string) (i : nat) (c : ascii) : bool :=
  match String.get i s with
  | Some d => Ascii.eqb d c
  | None => false
  end.

(** Helper function to get current user from cookie.  The outcome of
    [c.Cookie("user")] is the argument [cookie]; [Unmarshal] stands for
    [json.Unmarshal] into a string. *)
Definition getCurrentUser (Unmarshal : string -> result string) (cookie : result string) : string :=
  match cookie with
  | Err _ => EmptyString
  | Ok userCookie =>
      (* Handle both JSON format and plain text format *)
      if (0 <? String.length userCookie)%nat
         && byte_is userCookie 0 dquote
         && byte_is userCookie (String.length userCookie - 1) dquote
      then
        match Unmarshal userCookie with
        | Err _ => EmptyString
        | Ok user => user
        end
      else userCookie
  end.

Definition StatusFound : nat := 302.

(** Home route: the status and location of the redirect it answers. *)
Definition home (Unmarshal : string -> result string) (cookie : result string) : nat * string :=
  let user := getCurrentUser Unmarshal cookie in
  if String.eqb user EmptyString then (StatusFound, "/login")
  else (StatusFound, "/save").

(** A method that reads the account once and then either fails without
    another call, or writes once, with [UpdateFile], the account changed
    by [f], under the email the record itself carries. *)
Definition read_modify_write `{Models} (S : Storage) (m : prog (option error))
    (f : User -> result User) (email : string) (s : state S) : Prop :=
  (trace S m s = [Issued (GetFile (getUserPath email))] /\
   exists e, fst (run S m s) = Some e) \/
  (exists u u' j, load S email s = Ok u /\ f u = Ok u' /\ ToJSON u' = Ok j /\
     trace S m s = [Issued (GetFile (getUserPath email));
                    Issued (UpdateFile (getUserPath (Email u')) (VString j))]).

(** ** Requests on concurrent workers *)

(** One call of a program on the backend; a finished program stays as
    it is. *)
Definition step (S : Storage) {A : Type} (m : prog A) (s : state S) : prog A * state S :=
  match m with
  | Ret a => (Ret a, s)
  | Do c k => let (r, s') := handle S c s in (k r, s')
  end.

(** Two methods running on two workers over the one backend: the
    schedule says whose call comes next, [true] for the first. *)
Fixpoint interleave (S : Storage) {A B : Type} (schedule : list bool)
    (m1 : prog A) (m2 : prog B) (s : state S) : prog A * prog B * state S :=
  match schedule with
  | [] => (m1, m2, s)
  | true :: rest => let (m1', s') := step S m1 s in interleave S rest m1' m2 s'
  | false :: rest => let (m2', s') := step S m2 s in interleave S rest m1 m2' s'
  end.

(** A state of the reference backend in which a file sits where the
    home directory should be. *)
Definition home_is_a_file (a : absence) : state (PathStore a) :=
  snd (createFile ["home"] (VOther "blob") ∅).

(** * Proofs *)

(** ** Running programs *)

Lemma run_bind (S : Storage) {A B : Type} (m : prog A) (f : A -> prog B) (s : state S) :
  run S (bind m f) s = let (a, s') := run S m s in run S (f a) s'.
Proof.
  revert s. induction m as [a | R c k IH]; intros s; simpl.
  - reflexivity.
  - destruct (handle S c s) as [r s1]. apply IH.
Qed.

Lemma reads_only_bind {A B : Type} (m : prog A) (f : A -> prog B) :
  reads_only m -> (forall a, reads_only (f a)) -> reads_only (bind m f).
Proof.
  intros Hm Hf. induction Hm as [a | p k _ IH]; simpl.
  - apply Hf.
  - constructor. exact IH.
Qed.

Lemma reads_only_run (S : Storage) {A : Type} (m : prog A) :
  read_only_get S -> reads_only m -> forall s, snd (run S m s) = s.
Proof.
  intros Hro Hm. induction Hm as [a | p k _ IH]; intros s; simpl.
  - reflexivity.
  - specialize (Hro p s). destruct (handle S (GetFile p) s) as [r s1].
    simpl in Hro. subst s1. apply IH.
Qed.

Lemma run_UserExists (S : Storage) (email : string) (s : state S) :
  run S (UserExists email) s =
  (exists_of (fetch S (getUserPath email) s),
   snd (handle S (GetFile (getUserPath email)) s)).
Proof.
  unfold UserExists, fetch. simpl.
  destruct (handle S (GetFile (getUserPath email)) s) as [[item err] s1]; simpl.
  destruct item, err as [e|]; try destruct (is_ErrNotFound e); reflexivity.
Qed.

Lemma run_GetUser `{Models} (S : Storage) (email : string) (s : state S) :
  run S (GetUser email) s =
  (decode (fetch S (getUserPath email) s),
   snd (handle S (GetFile (getUserPath email)) s)).
Proof.
  unfold GetUser, fetch. simpl.
  destruct (handle S (GetFile (getUserPath email)) s) as [[item err] s1]; simpl.
  destruct item as [item|], err as [e|]; try reflexivity.
  destruct (as_string (Data item)) as [dataStr|]; [|reflexivity].
  destruct (UserFromJSON dataStr); reflexivity.
Qed.

Lemma load_decode `{Models} (S : Storage) (email : string) (s : state S) :
  load S email s = decode (fetch S (getUserPath email) s).
Proof. unfold load. rewrite run_GetUser. reflexivity. Qed.

Lemma reads_only_UserExists (email : string) : reads_only (UserExists email).
Proof.
  unfold UserExists. simpl. constructor. intros [item err].
  destruct err as [e|]; [destruct (is_ErrNotFound e)|]; constructor.
Qed.

Lemma reads_only_GetUser `{Models} (email : string) : reads_only (GetUser email).
Proof.
  unfold GetUser. simpl. constructor. intros [item err].
  destruct err as [e|]; [constructor|].
  destruct item as [item|]; [|constructor].
  destruct (as_string (Data item)) as [dataStr|]; [|constructor].
  destruct (UserFromJSON dataStr); constructor.
Qed.

Lemma reads_only_AuthenticateUser `{Models} (email password : string) :
  reads_only (AuthenticateUser email password).
Proof.
  unfold AuthenticateUser. apply reads_only_bind; [apply reads_only_GetUser|].
  intros [user|e]; [destruct (negb (GetConfirmed user))|]; constructor.
Qed.

Lemma reads_only_GetUserDongle `{Models} (email : string) :
  reads_only (GetUserDongle email).
Proof.
  unfold GetUserDongle. apply reads_only_bind; [apply reads_only_GetUser|].
  intros [user|e]; constructor.
Qed.

Lemma getUserPath_inj (e1 e2 : string) : getUserPath e1 = getUserPath e2 -> e1 = e2.
Proof. unfold getUserPath. congruence. Qed.

(** ** The reference backend keeps the contract *)

Lemma PathStore_read_only (a : absence) : read_only_get (PathStore a).
Proof. intros p s. reflexivity. Qed.

Local Ltac refute := let H := fresh in intros H; simpl in H; discriminate H.

Lemma PathStore_laws (a : absence) : StorageLaws (PathStore a).
Proof.
  split; try (unfold fetch; simpl state; simpl handle).
  - apply PathStore_read_only.
  - intros p d s s'. simpl. unfold createFile, getFile.
    destruct (s !! p) eqn:E; [refute|].
    destruct (forallb (is_dir s) (ancestors p)); [|refute].
    intros [= <-]. rewrite lookup_insert_eq. eauto.
  - intros p d s s'. simpl. unfold updateFile, getFile.
    destruct (s !! p) as [[|d0]|] eqn:E; try refute.
    intros [= <-]. rewrite lookup_insert_eq. eauto.
  - intros p s s'. simpl. unfold deleteFile, getFile.
    destruct (s !! p) as [[|d0]|] eqn:E; try refute.
    intros [= <-]. rewrite lookup_delete_eq.
    destruct a; [right | left]; reflexivity.
  - intros p s q. simpl. unfold createDirectory, getFile.
    destruct (s !! p) as [[|d0]|] eqn:E; simpl; try reflexivity.
    destruct (decide (p = q)) as [->|Hne].
    + rewrite lookup_insert_eq, E. reflexivity.
    + rewrite lookup_insert_ne by exact Hne. reflexivity.
  - intros p d s q Hne. simpl. unfold createFile, getFile.
    destruct (s !! p); simpl; [reflexivity|].
    destruct (forallb (is_dir s) (ancestors p)); simpl; [|reflexivity].
    rewrite lookup_insert_ne by congruence. reflexivity.
  - intros p d s q Hne. simpl. unfold updateFile, getFile.
    destruct (s !! p) as [[|d0]|]; simpl; try reflexivity.
    rewrite lookup_insert_ne by congruence. reflexivity.
  - intros p s q Hne. simpl. unfold deleteFile, getFile.
    destruct (s !! p) as [[|d0]|]; simpl; try reflexivity.
    rewrite lookup_delete_ne by congruence. reflexivity.
  - intros p d s e q. simpl. unfold createFile.
    destruct (s !! p); simpl; [reflexivity|].
    destruct (forallb (is_dir s) (ancestors p)); simpl; [refute|reflexivity].
  - intros p d s e q. simpl. unfold updateFile.
    destruct (s !! p) as [[|d0]|]; simpl; try reflexivity. refute.
  - intros p s e q. simpl. unfold deleteFile.
    destruct (s !! p) as [[|d0]|]; simpl; try reflexivity. refute.
Qed.

(** ** The reference [models] keep their laws *)

Lemma expect_app (lit rest : string) : expect lit (lit ++ rest) = Some rest.
Proof.
  induction lit as [|c lit IH]; simpl; [reflexivity|].
  rewrite Ascii.eqb_refl. exact IH.
Qed.

Lemma unescape_escape (s rest : string) :
  unescape (escape s ++ quote ++ rest) = Some (s, rest).
Proof.
  induction s as [|c s IH]; simpl.
  - reflexivity.
  - unfold needs_escape.
    destruct (Ascii.eqb c dquote) eqn:Eq; simpl.
    + rewrite IH. reflexivity.
    + destruct (Ascii.eqb c "\"%char) eqn:Eb; simpl.
      * rewrite IH. reflexivity.
      * rewrite Eq, Eb, IH. reflexivity.
Qed.

Lemma ref_json_round_trip (u : User) (j : string) :
  ref_ToJSON u = Ok j -> ref_UserFromJSON j = Ok u.
Proof.
  intros [= <-]. destruct u as [email password confirmed dongle].
  unfold ref_UserFromJSON. cbn [Email Password Confirmed Dongle].
  change ("{" ++ key "email" ++ quote ++ escape email ++ quote ++ ?r)
    with (("{" ++ key "email" ++ quote) ++ escape email ++ quote ++ r).
  rewrite expect_app, unescape_escape.
  change ("," ++ key "password" ++ quote ++ escape password ++ quote ++ ?r)
    with (("," ++ key "password" ++ quote) ++ escape password ++ quote ++ r).
  rewrite expect_app, unescape_escape.
  change ("," ++ key "dongle" ++ quote ++ escape dongle ++ quote ++ ?r)
    with (("," ++ key "dongle" ++ quote) ++ escape dongle ++ quote ++ r).
  rewrite expect_app, unescape_escape.
  change ("," ++ key "confirmed" ++ ?r) with (("," ++ key "confirmed") ++ r).
  rewrite expect_app.
  destruct confirmed; reflexivity.
Qed.

Lemma ref_hash_binds (password h : string) :
  ref_HashPassword password = Ok h ->
  forall q, ref_CheckPasswordHash q h = true <-> q = password.
Proof.
  unfold ref_HashPassword, ref_CheckPasswordHash.
  destruct (String.eqb password EmptyString); [refute|].
  intros [= <-] q. rewrite String.eqb_eq.
  cbv beta iota delta [String.append].
  split; intros Heq; [injection Heq as Heq; congruence | subst q; reflexivity].
Qed.

Lemma RefModels_laws : ModelLaws RefModels.
Proof.
  split.
  - exact ref_json_round_trip.
  - exact ref_hash_binds.
  - intros email password u. simpl. unfold ref_NewUser.
    destruct (ValidateEmail email); [|refute].
    destruct (ref_HashPassword password) as [h|e] eqn:Eh; [|refute].
    intros [= <-]. simpl. repeat split.
    apply (ref_hash_binds password h Eh). reflexivity.
Qed.

(** ** Existence check *)

(** C4: [UserExists] answers false without error exactly when [GetFile]
    at home/users/email yields the NotFound outcome, answers true when
    [GetFile] returns an item, and hands on every other error of
    [GetFile] unchanged. *)
Theorem UserExists_classifies (S : Storage) (email : string) (s : state S) :
  (fst (run S (UserExists email) s) = Ok false <->
   not_found (fetch S (getUserPath email) s)) /\
  (forall it, fetch S (getUserPath email) s = (Some it, None) ->
   fst (run S (UserExists email) s) = Ok true) /\
  (forall it e, fetch S (getUserPath email) s = (it, Some e) -> e <> ErrNotFound ->
   fst (run S (UserExists email) s) = Err e).
Proof.
  rewrite run_UserExists. simpl. unfold not_found.
  destruct (fetch S (getUserPath email) s) as [item err].
  repeat split.
  - destruct item, err as [[]|]; simpl; intros Hq; try discriminate Hq; auto.
  - intros [Hq|Hq]; simpl in Hq.
    + subst err. destruct item; reflexivity.
    + injection Hq as -> ->. reflexivity.
  - intros it [= -> ->]. reflexivity.
  - intros it e [= -> ->] Hne. destruct it, e; simpl; congruence.
Qed.

Lemma UserExists_classifies_witness :
  fetch (PathStore AbsentAsErrNotFound) (getUserPath "a@b.co") ∅ = (None, Some ErrNotFound) /\
  fst (run (PathStore AbsentAsErrNotFound) (UserExists "a@b.co") ∅) = Ok false.
Proof.
  split; [reflexivity|].
  apply (proj1 (UserExists_classifies (PathStore AbsentAsErrNotFound) "a@b.co" ∅)).
  left. reflexivity.
Defined.

(** ** Authentication *)

(** C1: for a stored account that is not confirmed [AuthenticateUser]
    fails with "user not confirmed" whatever the password; for a
    confirmed one it returns, without error, whether the password
    verifies against the stored hash. *)
Theorem AuthenticateUser_by_confirmation `{Models} (S : Storage) (email password : string)
    (s : state S) (u : User) :
  load S email s = Ok u ->
  (Confirmed u = false ->
   fst (run S (AuthenticateUser email password) s) = Err (Errorf "user not confirmed")) /\
  (Confirmed u = true ->
   fst (run S (AuthenticateUser email password) s) =
     Ok (CheckPasswordHash password (Password u))).
Proof.
  unfold load, AuthenticateUser. intros Hu. rewrite run_bind.
  destruct (run S (GetUser email) s) as [r s1]. simpl in Hu. subst r.
  unfold GetConfirmed, Authenticate.
  split; intros ->; reflexivity.
Qed.

Lemma AuthenticateUser_by_confirmation_witness :
  fst (run (PathStore AbsentAsNil) (@AuthenticateUser RefModels "u@x.com" "secret1")
         (fresh_account AbsentAsNil)) = Err (Errorf "user not confirmed") /\
  fst (run (PathStore AbsentAsNil) (@AuthenticateUser RefModels "u@x.com" "wrong")
         (confirmed_account AbsentAsNil)) = Ok false.
Proof.
  split.
  - apply (proj1 (@AuthenticateUser_by_confirmation RefModels (PathStore AbsentAsNil)
                    "u@x.com" "secret1" (fresh_account AbsentAsNil)
                    (mkUser "u@x.com" "$ref$secret1" false EmptyString) eq_refl)).
    reflexivity.
  - apply (proj2 (@AuthenticateUser_by_confirmation RefModels (PathStore AbsentAsNil)
                    "u@x.com" "wrong" (confirmed_account AbsentAsNil)
                    (mkUser "u@x.com" "$ref$secret1" true EmptyString) eq_refl)).
    reflexivity.
Defined.

(** ** Queries *)

(** C10: [UserExists], [GetUser], [AuthenticateUser] and [GetUserDongle]
    call nothing but [GetFile], whatever they are answered, so on a
    backend whose [GetFile] does not write they leave the state as it
    was. *)
Theorem queries_do_not_write `{Models} (S : Storage) (email password : string)
    (s : state S) :
  read_only_get S ->
  (reads_only (UserExists email) /\ reads_only (GetUser email) /\
   reads_only (AuthenticateUser email password) /\ reads_only (GetUserDongle email)) /\
  snd (run S (UserExists email) s) = s /\
  snd (run S (GetUser email) s) = s /\
  snd (run S (AuthenticateUser email password) s) = s /\
  snd (run S (GetUserDongle email) s) = s.
Proof.
  intros Hro.
  pose proof (reads_only_UserExists email) as H1.
  pose proof (reads_only_GetUser email) as H2.
  pose proof (reads_only_AuthenticateUser email password) as H3.
  pose proof (reads_only_GetUserDongle email) as H4.
  repeat split; try assumption; apply reads_only_run; assumption.
Qed.

Lemma queries_do_not_write_witness :
  snd (run (PathStore AbsentAsNil) (@AuthenticateUser RefModels "u@x.com" "secret1")
         (confirmed_account AbsentAsNil)) = confirmed_account AbsentAsNil.
Proof.
  apply (@queries_do_not_write RefModels (PathStore AbsentAsNil) "u@x.com" "secret1"
           (confirmed_account AbsentAsNil) (PathStore_read_only AbsentAsNil)).
Defined.

(** ** Email validation *)

Lemma Contains_at (s : string) :
  Contains s "@" = true <-> 1 <= count_byte "@" s.
Proof.
  unfold Contains. induction s as [|c s IH].
  - simpl. split; [discriminate | lia].
  - change (index 0 "@" (String c s))
      with (if prefix "@" (String c s) then Some 0
            else match index 0 "@" s with Some n => Some (S n) | None => None end).
    change (prefix "@" (String c s))
      with (if ascii_dec "@" c then prefix EmptyString s else false).
    change (count_byte "@" (String c s))
      with ((if Ascii.eqb "@" c then 1 else 0) + count_byte "@" s).
    destruct (ascii_dec "@" c) as [<-|Hne].
    + assert (prefix EmptyString s = true) as -> by (destruct s; reflexivity).
      rewrite Ascii.eqb_refl. split; [lia | reflexivity].
    + assert (Ascii.eqb "@" c = false) as -> by (apply Ascii.eqb_neq; exact Hne).
      rewrite Nat.add_0_l, <- IH.
      destruct (index 0 "@" s); split; auto; discriminate.
Qed.

(** C2, as the code has it: [ValidateEmail] accepts a string exactly when
    the byte "@" occurs in it at least once and it is longer than three
    bytes; further occurrences of "@" do not make it reject. *)
Theorem ValidateEmail_accepts (email : string) :
  ValidateEmail email = true <->
  1 <= count_byte "@" email /\ 3 < String.length email.
Proof.
  unfold ValidateEmail. rewrite andb_true_iff, Contains_at, Nat.ltb_lt.
  reflexivity.
Qed.

(** C2 as stated fails: "a@@b" holds "@" twice and is accepted. *)
Lemma two_ats_are_accepted :
  ~ (ValidateEmail "a@@b" = true <->
     count_byte "@" "a@@b" = 1 /\ 3 < String.length "a@@b").
Proof.
  intros [Hacc _]. specialize (Hacc eq_refl). destruct Hacc as [Hone _].
  vm_compute in Hone. discriminate Hone.
Qed.

(** ** Writing an account back *)

Section Mutation.
Context `{M : Models} {ML : ModelLaws M} (S : Storage) {SL : StorageLaws S}.

Lemma run_query {A : Type} (m : prog A) (s : state S) :
  reads_only m -> run S m s = (fst (run S m s), s).
Proof.
  intros Hm. pose proof (reads_only_run S m get_read_only Hm s) as Hs.
  destruct (run S m s) as [a s1]. simpl in *. congruence.
Qed.

Lemma load_item (email : string) (s : state S) (it : Item) (j : string) (u : User) :
  fetch S (getUserPath email) s = (Some it, None) ->
  Data it = VString j -> ToJSON u = Ok j -> load S email s = Ok u.
Proof.
  intros Hf Hd Hj. rewrite load_decode, Hf. simpl. rewrite Hd. simpl.
  apply json_round_trip. exact Hj.
Qed.

Lemma load_fetch (e : string) (s s' : state S) :
  fetch S (getUserPath e) s' = fetch S (getUserPath e) s -> load S e s' = load S e s.
Proof. intros Hf. rewrite !load_decode, Hf. reflexivity. Qed.

Lemma load_Ok_fetch (email : string) (s : state S) (u : User) :
  load S email s = Ok u -> exists it, fetch S (getUserPath email) s = (Some it, None).
Proof.
  rewrite load_decode.
  destruct (fetch S (getUserPath email) s) as [[it|] [e|]]; simpl; try refute.
  eauto.
Qed.

Lemma not_found_load (email : string) (s : state S) (u : User) :
  not_found (fetch S (getUserPath email) s) -> load S email s <> Ok u.
Proof.
  rewrite load_decode. unfold not_found.
  destruct (fetch S (getUserPath email) s) as [it err].
  intros [Hq|Hq]; simpl in Hq.
  - subst err. destruct it; simpl; discriminate.
  - injection Hq as -> ->. simpl. discriminate.
Qed.

(** [setUser] either fails and leaves every file as it was, or stores
    the account under its email and leaves the other files alone. *)
Lemma setUser_effect (u : User) (s : state S) :
  match fst (run S (setUser u) s) with
  | None =>
      load S (Email u) (snd (run S (setUser u) s)) = Ok u /\
      forall q, q <> getUserPath (Email u) ->
        fetch S q (snd (run S (setUser u) s)) = fetch S q s
  | Some _ =>
      forall q, fetch S q (snd (run S (setUser u) s)) = fetch S q s
  end.
Proof.
  unfold setUser. destruct (ToJSON u) as [j|e] eqn:Hj; simpl; [|reflexivity].
  pose proof (update_file_get (getUserPath (Email u)) (VString j) s) as Hget.
  pose proof (update_file_frame (getUserPath (Email u)) (VString j) s) as Hframe.
  pose proof (update_file_fail (getUserPath (Email u)) (VString j) s) as Hfail.
  destruct (handle S (UpdateFile (getUserPath (Email u)) (VString j)) s) as [[e|] s'];
    simpl in *.
  - intros q. eapply Hfail. reflexivity.
  - destruct (Hget s' eq_refl) as (it & Hf & Hd). split.
    + eapply load_item; eassumption.
    + exact Hframe.
Qed.

Lemma run_update_with (f : User -> result User) (email : string) (s : state S) :
  run S (update_with f email) s =
  match load S email s with
  | Err e => (Some e, s)
  | Ok user =>
      match f user with
      | Err e => (Some e, s)
      | Ok user => run S (setUser user) s
      end
  end.
Proof.
  unfold update_with, load. rewrite run_bind.
  rewrite (run_query (GetUser email) s) by apply reads_only_GetUser.
  destruct (fst (run S (GetUser email) s)) as [user|e]; simpl; [|reflexivity].
  destruct (f user); reflexivity.
Qed.

(** A mutator that fails changes no file; one that succeeds has loaded
    the account, changed it by [f] and stored the outcome, which the
    next load returns; files of other paths stay as they were. *)
Lemma update_with_effect (f : User -> result User) (email : string) (s : state S) :
  (forall u u', f u = Ok u' -> Email u' = Email u) ->
  (forall u, load S email s = Ok u -> Email u = email) ->
  match fst (run S (update_with f email) s) with
  | None =>
      exists u u', load S email s = Ok u /\ f u = Ok u' /\
        load S email (snd (run S (update_with f email) s)) = Ok u' /\
        forall q, q <> getUserPath email ->
          fetch S q (snd (run S (update_with f email) s)) = fetch S q s
  | Some _ =>
      forall q, fetch S q (snd (run S (update_with f email) s)) = fetch S q s
  end.
Proof.
  intros Hf Hwf. rewrite run_update_with.
  destruct (load S email s) as [u|e] eqn:Hu; simpl; [|reflexivity].
  destruct (f u) as [u'|e] eqn:Hfu; simpl; [|reflexivity].
  pose proof (setUser_effect u' s) as He.
  assert (Email u' = email) as Hem by (rewrite (Hf u u' Hfu); apply Hwf; reflexivity).
  rewrite Hem in He.
  destruct (fst (run S (setUser u') s)); [exact He|].
  destruct He as [Hl Hfr]. exists u, u'. auto.
Qed.

End Mutation.

(** ** The service on a backend that keeps the contract *)

Section Lifecycle.
Context `{M : Models} {ML : ModelLaws M} (S : Storage) {SL : StorageLaws S}.

Lemma UpdatePassword_shape (email newPassword : string) :
  UpdatePassword email newPassword = update_with (SetPassword newPassword) email.
Proof. reflexivity. Qed.

Lemma SetUserDongle_shape (email dongle : string) :
  SetUserDongle email dongle = update_with (fun u => Ok (SetDongle dongle u)) email.
Proof. reflexivity. Qed.

Lemma ConfirmUser_shape (email : string) :
  ConfirmUser email = update_with (fun u => Ok (SetConfirmed u)) email.
Proof. reflexivity. Qed.

Lemma SetPassword_fields (password : string) (u u' : User) :
  SetPassword password u = Ok u' ->
  Email u' = Email u /\ Confirmed u' = Confirmed u /\ Dongle u' = Dongle u /\
  HashPassword password = Ok (Password u').
Proof.
  unfold SetPassword. destruct (HashPassword password) as [h|e]; [|refute].
  intros [= <-]. auto.
Qed.

Lemma run_UserExists_ro (email : string) (s : state S) :
  run S (UserExists email) s = (exists_of (fetch S (getUserPath email) s), s).
Proof.
  rewrite (run_query S (UserExists email) s) by apply reads_only_UserExists.
  rewrite run_UserExists. reflexivity.
Qed.

Lemma run_GetUser_ro (email : string) (s : state S) :
  run S (GetUser email) s = (load S email s, s).
Proof. unfold load. apply (run_query S). apply reads_only_GetUser. Qed.

Lemma run_AuthenticateUser (email password : string) (s : state S) :
  run S (AuthenticateUser email password) s =
  (match load S email s with
   | Err e => Err e
   | Ok u => if Confirmed u then Ok (CheckPasswordHash password (Password u))
             else Err (Errorf "user not confirmed")
   end, s).
Proof.
  unfold AuthenticateUser. rewrite run_bind, run_GetUser_ro.
  destruct (load S email s) as [u|e]; [|reflexivity].
  unfold GetConfirmed, Authenticate. destruct (Confirmed u); reflexivity.
Qed.

Lemma run_GetUserDongle (email : string) (s : state S) :
  run S (GetUserDongle email) s =
  (match load S email s with Err e => Err e | Ok u => Ok (Dongle u) end, s).
Proof.
  unfold GetUserDongle. rewrite run_bind, run_GetUser_ro.
  destruct (load S email s); reflexivity.
Qed.

Lemma exists_of_item (it : Item) : exists_of (Some it, None) = Ok true.
Proof. reflexivity. Qed.

Lemma CreateUser_exists (email password : string) (s : state S) (it : Item) :
  fetch S (getUserPath email) s = (Some it, None) ->
  run S (CreateUser email password) s = (Some (Errorf "user already exists"), s).
Proof.
  intros Hf. unfold CreateUser. rewrite run_bind, run_UserExists_ro, Hf. reflexivity.
Qed.

(** [CreateUser] either fails and changes no file, or found no account,
    built one and stored it, leaving the files at other paths alone. *)
Lemma CreateUser_effect (email password : string) (s : state S) :
  match fst (run S (CreateUser email password) s) with
  | None =>
      exists_of (fetch S (getUserPath email) s) = Ok false /\
      exists u, NewUser email password = Ok u /\
        load S email (snd (run S (CreateUser email password) s)) = Ok u /\
        exists it, fetch S (getUserPath email) (snd (run S (CreateUser email password) s))
                   = (Some it, None)
  | Some _ => True
  end /\
  forall q, (fst (run S (CreateUser email password) s) = None -> q <> getUserPath email) ->
    fetch S q (snd (run S (CreateUser email password) s)) = fetch S q s.
Proof.
  unfold CreateUser. rewrite run_bind, run_UserExists_ro.
  destruct (exists_of (fetch S (getUserPath email) s)) as [[|]|e] eqn:Hex;
    simpl; try (split; [exact I | reflexivity]).
  destruct (NewUser email password) as [u|e] eqn:Hnew;
    simpl; try (split; [exact I | reflexivity]).
  pose proof (create_dir_frame ["home"] s) as F1.
  destruct (handle S (CreateDir ["home"]) s) as [[e1|] sa]; simpl in F1; simpl.
  { split; [exact I | intros q _; apply F1]. }
  pose proof (create_dir_frame ["home"; UserDir] sa) as F2.
  destruct (handle S (CreateDir ["home"; UserDir]) sa) as [[e2|] sb]; simpl in F2; simpl.
  { split; [exact I | intros q _; rewrite F2; apply F1]. }
  destruct (ToJSON u) as [j|e] eqn:Hj; simpl.
  2: { split; [exact I | intros q _; rewrite F2; apply F1]. }
  pose proof (create_file_get (getUserPath email) (VString j) sb) as Hget.
  pose proof (create_file_frame (getUserPath email) (VString j) sb) as Hframe.
  pose proof (create_file_fail (getUserPath email) (VString j) sb) as Hfail.
  destruct (handle S (CreateFile (getUserPath email) (VString j)) sb) as [[e3|] sc];
    simpl in *.
  - split; [exact I|]. intros q _. rewrite (Hfail e3 q eq_refl), F2. apply F1.
  - destruct (Hget sc eq_refl) as (it & Hf & Hd). split.
    + split; [reflexivity|]. exists u. split; [reflexivity|]. split.
      * eapply load_item; eassumption.
      * eauto.
    + intros q Hq. rewrite Hframe by (apply Hq; reflexivity). rewrite F2. apply F1.
Qed.

(** [DeleteUser] either fails and changes no file, or leaves no file at
    the account's path and the files at other paths alone. *)
Lemma DeleteUser_effect (email : string) (s : state S) :
  match fst (run S (DeleteUser email) s) with
  | None => not_found (fetch S (getUserPath email) (snd (run S (DeleteUser email) s)))
  | Some _ => True
  end /\
  forall q, (fst (run S (DeleteUser email) s) = None -> q <> getUserPath email) ->
    fetch S q (snd (run S (DeleteUser email) s)) = fetch S q s.
Proof.
  unfold DeleteUser. rewrite run_bind, run_UserExists_ro.
  destruct (exists_of (fetch S (getUserPath email) s)) as [[|]|e] eqn:Hex;
    simpl; try (split; [exact I | reflexivity]).
  pose proof (delete_file_get (getUserPath email) s) as Hget.
  pose proof (delete_file_frame (getUserPath email) s) as Hframe.
  pose proof (delete_file_fail (getUserPath email) s) as Hfail.
  destruct (handle S (DeleteFile (getUserPath email)) s) as [[e|] s']; simpl in *.
  - split; [exact I|]. intros q _. apply (Hfail e q eq_refl).
  - split; [apply Hget; reflexivity|]. intros q Hq. apply Hframe, Hq. reflexivity.
Qed.

End Lifecycle.

(** ** What a request does to the stored accounts *)

Section Requests.
Context `{M : Models} {ML : ModelLaws M} (S : Storage) {SL : StorageLaws S}.

Lemma SetPassword_keeps (password : string) : keeps_identity (SetPassword password).
Proof.
  intros u u' Hs. destruct (SetPassword_fields password u u' Hs) as (He & Hc & _).
  split; [exact He | congruence].
Qed.

Lemma SetDongle_keeps (dongle : string) : keeps_identity (fun u => Ok (SetDongle dongle u)).
Proof. intros u u' [= <-]. simpl. auto. Qed.

Lemma SetConfirmed_keeps : keeps_identity (fun u => Ok (SetConfirmed u)).
Proof. intros u u' [= <-]. simpl. auto. Qed.

Lemma update_with_kept (f : User -> result User) (e1 e : string) (r : request)
    (s : state S) :
  keeps_identity f -> well_formed S s ->
  account_kept S e r s (snd (run S (update_with f e1) s)).
Proof.
  intros Hk Hwf.
  pose proof (update_with_effect S f e1 s
                (fun u u' H => proj1 (Hk u u' H)) (Hwf e1)) as He.
  destruct (fst (run S (update_with f e1) s)).
  - left. apply load_fetch, He.
  - destruct He as (u & u' & Hl & Hf & Hl' & Hfr).
    destruct (string_dec e e1) as [->|Hne].
    + right; left. exists u'. split; [exact Hl'|].
      destruct (Hk u u' Hf) as [Hem Hc]. split.
      * rewrite Hem. apply Hwf. exact Hl.
      * intros u0 Hl0. rewrite Hl in Hl0. injection Hl0 as <-. exact Hc.
    + left. apply load_fetch, Hfr. intros Hp. apply Hne, getUserPath_inj, Hp.
Qed.

Lemma serve_kept (r : request) (s : state S) (e : string) :
  well_formed S s -> account_kept S e r s (serve S r s).
Proof.
  intros Hwf. destruct r as [e1|e1|e1 pw|e1 pw|e1 pw|e1 d|e1|e1|e1]; cbn [serve].
  - left. rewrite (reads_only_run S _ get_read_only (reads_only_UserExists e1)). reflexivity.
  - left. rewrite (reads_only_run S _ get_read_only (reads_only_GetUser e1)). reflexivity.
  - pose proof (CreateUser_effect S e1 pw s) as [Hc Hfr].
    destruct (fst (run S (CreateUser e1 pw) s)) as [err|].
    { left. apply load_fetch, Hfr. intros Hn. discriminate Hn. }
    destruct (string_dec e e1) as [->|Hne].
    + right; left. destruct Hc as (Hex & u & Hnew & Hl & _).
      exists u. split; [exact Hl|]. split.
      * apply (new_user_fields e1 pw u Hnew).
      * intros u0 Hl0. apply load_Ok_fetch in Hl0 as [it Hit].
        rewrite Hit in Hex. discriminate Hex.
    + left. apply load_fetch, Hfr. intros _ Hp. apply Hne, getUserPath_inj, Hp.
  - left. rewrite (reads_only_run S _ get_read_only (reads_only_AuthenticateUser e1 pw)).
    reflexivity.
  - rewrite UpdatePassword_shape. apply update_with_kept; [apply SetPassword_keeps | exact Hwf].
  - rewrite SetUserDongle_shape. apply update_with_kept; [apply SetDongle_keeps | exact Hwf].
  - left. rewrite (reads_only_run S _ get_read_only (reads_only_GetUserDongle e1)).
    reflexivity.
  - rewrite ConfirmUser_shape. apply update_with_kept; [apply SetConfirmed_keeps | exact Hwf].
  - pose proof (DeleteUser_effect S e1 s) as [Hd Hfr].
    destruct (fst (run S (DeleteUser e1) s)) as [err|].
    { left. apply load_fetch, Hfr. intros Hn. discriminate Hn. }
    destruct (string_dec e e1) as [->|Hne].
    + right; right. split; [reflexivity|]. intros u. apply not_found_load, Hd.
    + left. apply load_fetch, Hfr. intros _ Hp. apply Hne, getUserPath_inj, Hp.
Qed.

Lemma serve_well_formed (r : request) (s : state S) :
  well_formed S s -> well_formed S (serve S r s).
Proof.
  intros Hwf e u Hl.
  destruct (serve_kept r s e Hwf) as [Heq | [(u' & Hl' & Hem & _) | (_ & Hno)]].
  - apply Hwf. rewrite <- Heq. exact Hl.
  - rewrite Hl' in Hl. injection Hl as <-. exact Hem.
  - exfalso. exact (Hno u Hl).
Qed.

Lemma serve_all_well_formed (rs : list request) (s : state S) :
  well_formed S s -> well_formed S (serve_all S rs s).
Proof.
  unfold serve_all. revert s. induction rs as [|r rs IH]; intros s Hwf; simpl.
  - exact Hwf.
  - apply IH, serve_well_formed, Hwf.
Qed.

Lemma serve_confirmed (r : request) (s : state S) (e : string) :
  well_formed S s -> confirmed_at S e s ->
  confirmed_at S e (serve S r s) \/
  (r = ReqDeleteUser e /\ forall u, load S e (serve S r s) <> Ok u).
Proof.
  intros Hwf (u & Hl & Hc).
  destruct (serve_kept r s e Hwf) as [Heq | [(u' & Hl' & _ & Hk) | Hdel]].
  - left. exists u. rewrite Heq. auto.
  - left. exists u'. split; [exact Hl' | exact (Hk u Hl Hc)].
  - right. exact Hdel.
Qed.

End Requests.

Lemma empty_well_formed (a : absence) : @well_formed RefModels (PathStore a) ∅.
Proof.
  intros e u. unfold load. rewrite run_GetUser. unfold fetch. simpl.
  unfold getFile. rewrite lookup_empty. destruct a; simpl; discriminate.
Qed.

(** ** Creation, rotation, binding, confirmation *)

Section Accounts.
Context `{M : Models} {ML : ModelLaws M} (S : Storage) {SL : StorageLaws S}.

(** C3: where an account is already stored at home/users/email,
    [CreateUser] with that email fails with "user already exists" and
    leaves the state as it was; such is the state a successful
    [CreateUser] leaves, so a second call fails and changes nothing. *)
Theorem CreateUser_twice (email password password' : string) (s : state S) :
  (forall it, fetch S (getUserPath email) s = (Some it, None) ->
     run S (CreateUser email password') s = (Some (Errorf "user already exists"), s)) /\
  (forall s1, run S (CreateUser email password) s = (None, s1) ->
     run S (CreateUser email password') s1 = (Some (Errorf "user already exists"), s1)).
Proof.
  split.
  - intros it Hf. eapply CreateUser_exists; eassumption.
  - intros s1 Hrun. pose proof (CreateUser_effect S email password s) as [Hc _].
    rewrite Hrun in Hc. simpl in Hc. destruct Hc as (_ & u & _ & _ & it & Hit).
    eapply CreateUser_exists; eassumption.
Qed.

(** C7: after a successful [SetUserDongle] on a stored account,
    [GetUserDongle] on the same email returns exactly the token set. *)
Theorem dongle_round_trip (email token : string) (s s' : state S) (u : User) :
  load S email s = Ok u -> Email u = email ->
  run S (SetUserDongle email token) s = (None, s') ->
  run S (GetUserDongle email) s' = (Ok token, s').
Proof.
  intros Hl Hem Hrun. rewrite SetUserDongle_shape in Hrun.
  assert (Hwf : forall v, load S email s = Ok v -> Email v = email).
  { intros v Hv. rewrite Hl in Hv. injection Hv as <-. exact Hem. }
  assert (Hid : forall v v', Ok (SetDongle token v) = Ok v' -> Email v' = Email v).
  { intros v v' [= <-]. reflexivity. }
  pose proof (update_with_effect S (fun u => Ok (SetDongle token u)) email s Hid Hwf) as He.
  rewrite Hrun in He. simpl in He.
  destruct He as (u0 & u' & _ & Hf & Hl' & _).
  injection Hf as <-. rewrite (run_GetUserDongle S), Hl'. reflexivity.
Qed.

(** Part of C6: on a confirmed account a successful [UpdatePassword]
    makes every other password fail to authenticate and the new one
    authenticate. *)
Theorem UpdatePassword_rotates (email old new : string) (s s' : state S) (u : User) :
  load S email s = Ok u -> Email u = email -> Confirmed u = true -> old <> new ->
  run S (UpdatePassword email new) s = (None, s') ->
  run S (AuthenticateUser email old) s' = (Ok false, s') /\
  run S (AuthenticateUser email new) s' = (Ok true, s').
Proof.
  intros Hl Hem Hc Hne Hrun. rewrite UpdatePassword_shape in Hrun.
  assert (Hwf : forall v, load S email s = Ok v -> Email v = email).
  { intros v Hv. rewrite Hl in Hv. injection Hv as <-. exact Hem. }
  assert (Hid : forall v v', SetPassword new v = Ok v' -> Email v' = Email v).
  { intros v v' Hv. apply (SetPassword_fields new v v' Hv). }
  pose proof (update_with_effect S (SetPassword new) email s Hid Hwf) as He.
  rewrite Hrun in He. simpl in He.
  destruct He as (u0 & u' & Hl0 & Hf & Hl' & _).
  rewrite Hl in Hl0. injection Hl0 as <-.
  destruct (SetPassword_fields new u u' Hf) as (_ & Hc' & _ & Hh).
  rewrite !(run_AuthenticateUser S), Hl', Hc', Hc.
  pose proof (hash_binds new (Password u') Hh) as Hb. split; f_equal; f_equal.
  - destruct (CheckPasswordHash old (Password u')) eqn:E; [|reflexivity].
    exfalso. apply Hne, Hb, E.
  - apply Hb. reflexivity.
Qed.

(** Part of C6: after a successful [DeleteUser], [UserExists] answers
    false and [GetUser] fails, with "user not found" where the backend
    reports the missing file by a nil item and with the backend's own
    [ErrNotFound] where it reports it by that error. *)
Theorem DeleteUser_then_absent (email : string) (s s' : state S) :
  run S (DeleteUser email) s = (None, s') ->
  run S (UserExists email) s' = (Ok false, s') /\
  ((fetch S (getUserPath email) s' = (None, None) /\
    run S (GetUser email) s' = (Err (Errorf "user not found"), s')) \/
   (snd (fetch S (getUserPath email) s') = Some ErrNotFound /\
    run S (GetUser email) s' = (Err ErrNotFound, s'))).
Proof.
  intros Hrun. pose proof (DeleteUser_effect S email s) as [Hd _].
  rewrite Hrun in Hd. simpl in Hd.
  rewrite (run_UserExists_ro S), (run_GetUser_ro S), load_decode.
  destruct (fetch S (getUserPath email) s') as [it err].
  destruct Hd as [Hq|Hq]; simpl in Hq.
  - subst err. split; [destruct it; reflexivity|]. right. destruct it; auto.
  - injection Hq as -> ->. split; [reflexivity|]. left. auto.
Qed.

(** Part of C9: on a stored account a successful [UpdatePassword],
    [SetUserDongle] or [ConfirmUser] leaves a record that differs from
    the one loaded in the password hash, the token or the confirmed
    flag only, and leaves the files at all other paths as they were;
    a failed load is returned as it is, and so is a failed write. *)
Theorem mutators_change_one_field (email : string) (s : state S) (u : User) :
  load S email s = Ok u -> Email u = email ->
  (forall pw s', run S (UpdatePassword email pw) s = (None, s') ->
     (exists h, HashPassword pw = Ok h /\
        load S email s' = Ok (mkUser (Email u) h (Confirmed u) (Dongle u))) /\
     forall q, q <> getUserPath email -> fetch S q s' = fetch S q s) /\
  (forall d s', run S (SetUserDongle email d) s = (None, s') ->
     load S email s' = Ok (mkUser (Email u) (Password u) (Confirmed u) d) /\
     forall q, q <> getUserPath email -> fetch S q s' = fetch S q s) /\
  (forall s', run S (ConfirmUser email) s = (None, s') ->
     load S email s' = Ok (mkUser (Email u) (Password u) true (Dongle u)) /\
     forall q, q <> getUserPath email -> fetch S q s' = fetch S q s).
Proof.
  intros Hl Hem.
  assert (Hwf : forall v, load S email s = Ok v -> Email v = email).
  { intros v Hv. rewrite Hl in Hv. injection Hv as <-. exact Hem. }
  split; [|split].
  - intros pw s' Hrun. rewrite UpdatePassword_shape in Hrun.
    assert (Hid : forall v v', SetPassword pw v = Ok v' -> Email v' = Email v).
    { intros v v' Hv. apply (SetPassword_fields pw v v' Hv). }
    pose proof (update_with_effect S (SetPassword pw) email s Hid Hwf) as He.
    rewrite Hrun in He. simpl in He.
    destruct He as (u0 & u' & Hl0 & Hf & Hl' & Hfr).
    rewrite Hl in Hl0. injection Hl0 as <-. split; [|exact Hfr].
    unfold SetPassword in Hf. destruct (HashPassword pw) as [h|e]; [|discriminate Hf].
    injection Hf as <-. exists h. auto.
  - intros d s' Hrun. rewrite SetUserDongle_shape in Hrun.
    assert (Hid : forall v v', Ok (SetDongle d v) = Ok v' -> Email v' = Email v).
    { intros v v' [= <-]. reflexivity. }
    pose proof (update_with_effect S (fun u => Ok (SetDongle d u)) email s Hid Hwf) as He.
    rewrite Hrun in He. simpl in He.
    destruct He as (u0 & u' & Hl0 & Hf & Hl' & Hfr).
    rewrite Hl in Hl0. injection Hl0 as <-. injection Hf as <-. auto.
  - intros s' Hrun. rewrite ConfirmUser_shape in Hrun.
    assert (Hid : forall v v', Ok (SetConfirmed v) = Ok v' -> Email v' = Email v).
    { intros v v' [= <-]. reflexivity. }
    pose proof (update_with_effect S (fun u => Ok (SetConfirmed u)) email s Hid Hwf) as He.
    rewrite Hrun in He. simpl in He.
    destruct He as (u0 & u' & Hl0 & Hf & Hl' & Hfr).
    rewrite Hl in Hl0. injection Hl0 as <-. injection Hf as <-. auto.
Qed.

(** Part of C9: a mutator hands on the error of the load, and the
    error of [UpdateFile] when the write fails after a good load. *)
Theorem mutators_hand_on_errors (f : User -> result User) (email : string) (s : state S) :
  (forall e, load S email s = Err e ->
     run S (update_with f email) s = (Some e, s)) /\
  (forall u u' j e s', load S email s = Ok u -> f u = Ok u' -> ToJSON u' = Ok j ->
     handle S (UpdateFile (getUserPath (Email u')) (VString j)) s = (Some e, s') ->
     run S (update_with f email) s = (Some e, s')).
Proof.
  split.
  - intros e Hl. rewrite (run_update_with S), Hl. reflexivity.
  - intros u u' j e s' Hl Hf Hj Hw. rewrite (run_update_with S), Hl, Hf.
    unfold setUser. rewrite Hj. simpl. rewrite Hw. reflexivity.
Qed.

(** C8, as the code has it: on a backend where every record is filed
    under its own email, no request that runs to its end with no call
    of another request in between turns a confirmed account into a
    stored unconfirmed one.  After any such request the account is still
    confirmed, or the request was its deletion and no record is left;
    and after any sequence of such requests that does not delete it, it
    is confirmed. *)
Theorem confirmed_is_terminal (email : string) (s : state S) :
  well_formed S s -> confirmed_at S email s ->
  (forall r, confirmed_at S email (serve S r s) \/
     (r = ReqDeleteUser email /\ forall u, load S email (serve S r s) <> Ok u)) /\
  (forall rs, Forall (fun r => r <> ReqDeleteUser email) rs ->
     confirmed_at S email (serve_all S rs s)).
Proof.
  intros Hwf Hc. split.
  - intros r. exact (serve_confirmed S r s email Hwf Hc).
  - intros rs. unfold serve_all. revert s Hwf Hc.
    induction rs as [|r rs IH]; intros s Hwf Hc Hall; simpl.
    + exact Hc.
    + inversion Hall as [|r0 rs0 Hr Hrs]; subst.
      apply IH; [exact (serve_well_formed S r s Hwf) | | exact Hrs].
      destruct (serve_confirmed S r s email Hwf Hc) as [Hk | [Hd _]];
        [exact Hk | contradiction].
Qed.

End Accounts.

(** ** Loading an account *)

(** Part of C5: what [GetUser] returns for each answer of [GetFile]:
    "user not found" for no item and no error, "invalid user data
    format" for a payload that is not a string, the outcome of
    [UserFromJSON] for one that is, and the error of [GetFile] itself,
    unchanged, whenever there is one. *)
Theorem GetUser_outcomes `{Models} (S : Storage) (email : string) (s : state S) :
  (fetch S (getUserPath email) s = (None, None) ->
   fst (run S (GetUser email) s) = Err (Errorf "user not found")) /\
  (forall it repr, fetch S (getUserPath email) s = (Some it, None) ->
   Data it = VOther repr ->
   fst (run S (GetUser email) s) = Err (Errorf "invalid user data format")) /\
  (forall it dataStr, fetch S (getUserPath email) s = (Some it, None) ->
   Data it = VString dataStr ->
   fst (run S (GetUser email) s) = UserFromJSON dataStr) /\
  (forall it e, fetch S (getUserPath email) s = (it, Some e) ->
   fst (run S (GetUser email) s) = Err e).
Proof.
  rewrite run_GetUser. simpl. repeat split.
  - intros ->. reflexivity.
  - intros it repr -> Hd. simpl. rewrite Hd. reflexivity.
  - intros it j -> Hd. simpl. rewrite Hd. reflexivity.
  - intros it e ->. destruct it; reflexivity.
Qed.

(** C5, where the code departs from it: when [GetFile] reports the
    missing file by [ErrNotFound], which [UserExists] turns into "no such
    user", [GetUser] returns that error of the backend and not "user not
    found". *)
Theorem GetUser_hands_on_ErrNotFound `{Models} (S : Storage) (email : string)
    (s : state S) (it : option Item) :
  fetch S (getUserPath email) s = (it, Some ErrNotFound) ->
  fst (run S (UserExists email) s) = Ok false /\
  fst (run S (GetUser email) s) = Err ErrNotFound /\
  fst (run S (GetUser email) s) <> Err (Errorf "user not found").
Proof.
  intros Hf. rewrite run_UserExists, run_GetUser, Hf. simpl.
  destruct it; repeat split; discriminate.
Qed.

Lemma GetUser_hands_on_ErrNotFound_witness :
  fetch (PathStore AbsentAsErrNotFound) (getUserPath "a@b.co") ∅ = (None, Some ErrNotFound) /\
  fst (run (PathStore AbsentAsErrNotFound) (@GetUser RefModels "a@b.co") ∅) = Err ErrNotFound.
Proof.
  assert (Hf : fetch (PathStore AbsentAsErrNotFound) (getUserPath "a@b.co") ∅
               = (None, Some ErrNotFound)) by reflexivity.
  split; [exact Hf|].
  exact (proj1 (proj2 (@GetUser_hands_on_ErrNotFound RefModels
                         (PathStore AbsentAsErrNotFound) "a@b.co" ∅ None Hf))).
Defined.

(** ** The scenarios on the reference backend *)

(** C6, where the code departs from it: on a backend that reports a
    missing file by [ErrNotFound], after the account is deleted
    [UserExists] answers false but [GetUser] fails with the backend's
    [ErrNotFound], not with "user not found". *)
Theorem GetUser_after_DeleteUser :
  let S := PathStore AbsentAsErrNotFound in
  let s := @serve_all RefModels S [ReqDeleteUser "u@x.com"] (confirmed_account _) in
  fst (run S (DeleteUser "u@x.com") (confirmed_account _)) = None /\
  fst (run S (UserExists "u@x.com") s) = Ok false /\
  fst (run S (@GetUser RefModels "u@x.com") s) = Err ErrNotFound.
Proof. vm_compute. auto. Qed.

(** C9, where the code departs from it: when [GetFile] reports the
    missing file by [ErrNotFound], each of the three mutators applied to
    an account that is not there fails with that error of the backend,
    the one a vanished file gives at the write, and not with "user not
    found". *)
Theorem mutators_hand_on_ErrNotFound `{Models} (S : Storage)
    (email newPassword dongle : string) (s : state S) (it : option Item) :
  fetch S (getUserPath email) s = (it, Some ErrNotFound) ->
  fst (run S (UpdatePassword email newPassword) s) = Some ErrNotFound /\
  fst (run S (SetUserDongle email dongle) s) = Some ErrNotFound /\
  fst (run S (ConfirmUser email) s) = Some ErrNotFound.
Proof.
  intros Hf.
  assert (Hup : forall f, fst (run S (update_with f email) s) = Some ErrNotFound).
  { intros f. unfold update_with. rewrite run_bind, run_GetUser, Hf.
    destruct it; reflexivity. }
  rewrite UpdatePassword_shape, SetUserDongle_shape, ConfirmUser_shape.
  repeat split; apply Hup.
Qed.

Lemma mutators_hand_on_ErrNotFound_witness :
  let S := PathStore AbsentAsErrNotFound in
  fst (run S (@UpdatePassword RefModels "a@b.co" "secret2") ∅) = Some ErrNotFound /\
  fst (run S (@SetUserDongle RefModels "a@b.co" "token-A") ∅) = Some ErrNotFound /\
  fst (run S (@ConfirmUser RefModels "a@b.co") ∅) = Some ErrNotFound.
Proof.
  assert (Hf : fetch (PathStore AbsentAsErrNotFound) (getUserPath "a@b.co") ∅
               = (None, Some ErrNotFound)) by reflexivity.
  exact (@mutators_hand_on_ErrNotFound RefModels (PathStore AbsentAsErrNotFound)
           "a@b.co" "secret2" "token-A" ∅ None Hf).
Defined.

(** On a backend that reports a missing file by a nil item the scenario
    of section 8 runs as written, and on one that reports it by
    [ErrNotFound] it differs in the last answer alone. *)
Example scenario_AbsentAsNil :
  @scenario RefModels (PathStore AbsentAsNil) ∅ =
  (None, None, Ok true, None, Ok false, Ok true, None, Ok false,
   Err (Errorf "user not found")).
Proof. vm_compute. reflexivity. Qed.

Example scenario_AbsentAsErrNotFound :
  @scenario RefModels (PathStore AbsentAsErrNotFound) ∅ =
  (None, None, Ok true, None, Ok false, Ok true, None, Ok false,
   Err ErrNotFound).
Proof. vm_compute. reflexivity. Qed.

(** ** Instances of the statements on the reference backend *)

Lemma CreateUser_twice_witness :
  run (PathStore AbsentAsNil) (@CreateUser RefModels "u@x.com" "secret1") ∅
    = (None, fresh_account AbsentAsNil) /\
  run (PathStore AbsentAsNil) (@CreateUser RefModels "u@x.com" "other")
    (fresh_account AbsentAsNil)
    = (Some (Errorf "user already exists"), fresh_account AbsentAsNil).
Proof.
  assert (Hfirst : run (PathStore AbsentAsNil) (@CreateUser RefModels "u@x.com" "secret1") ∅
                   = (None, fresh_account AbsentAsNil)) by (vm_compute; reflexivity).
  split; [exact Hfirst|].
  exact (proj2 (@CreateUser_twice RefModels RefModels_laws (PathStore AbsentAsNil)
                  (PathStore_laws AbsentAsNil) "u@x.com" "secret1" "other" ∅)
           (fresh_account AbsentAsNil) Hfirst).
Defined.

Lemma dongle_round_trip_witness :
  run (PathStore AbsentAsErrNotFound) (@GetUserDongle RefModels "u@x.com")
    (@serve_all RefModels (PathStore AbsentAsErrNotFound)
       [ReqSetUserDongle "u@x.com" "token-A"] (confirmed_account AbsentAsErrNotFound))
  = (Ok "token-A",
     @serve_all RefModels (PathStore AbsentAsErrNotFound)
       [ReqSetUserDongle "u@x.com" "token-A"] (confirmed_account AbsentAsErrNotFound)).
Proof.
  apply (@dongle_round_trip RefModels RefModels_laws (PathStore AbsentAsErrNotFound)
           (PathStore_laws AbsentAsErrNotFound) "u@x.com" "token-A"
           (confirmed_account AbsentAsErrNotFound) _
           (mkUser "u@x.com" "$ref$secret1" true EmptyString)).
  - vm_compute. reflexivity.
  - reflexivity.
  - vm_compute. reflexivity.
Defined.

Lemma confirmed_is_terminal_witness :
  @confirmed_at RefModels (PathStore AbsentAsNil) "u@x.com"
    (@serve_all RefModels (PathStore AbsentAsNil)
       [ReqUpdatePassword "u@x.com" "secret2"; ReqSetUserDongle "u@x.com" "token-A";
        ReqCreateUser "u@x.com" "again"; ReqDeleteUser "v@y.com";
        ReqConfirmUser "u@x.com"]
       (confirmed_account AbsentAsNil)).
Proof.
  apply (@confirmed_is_terminal RefModels RefModels_laws (PathStore AbsentAsNil)
           (PathStore_laws AbsentAsNil) "u@x.com" (confirmed_account AbsentAsNil)).
  - apply (@serve_all_well_formed RefModels RefModels_laws (PathStore AbsentAsNil)
             (PathStore_laws AbsentAsNil)).
    apply empty_well_formed.
  - exists (mkUser "u@x.com" "$ref$secret1" true EmptyString).
    split; [vm_compute|]; reflexivity.
  - repeat constructor; discriminate.
Defined.

(** * Further properties of the service *)

(** ** The calls each method makes *)

Lemma trace_bind (S : Storage) {A B : Type} (m : prog A) (f : A -> prog B) (s : state S) :
  trace S (bind m f) s =
  (trace S m s ++ trace S (f (fst (run S m s))) (snd (run S m s)))%list.
Proof.
  revert s. induction m as [a | R c k IH]; intros s; simpl.
  - reflexivity.
  - f_equal. destruct (handle S c s) as [r s1]. apply IH.
Qed.

Lemma trace_UserExists (S : Storage) (email : string) (s : state S) :
  trace S (UserExists email) s = [Issued (GetFile (getUserPath email))].
Proof.
  unfold UserExists. simpl.
  destruct (handle S (GetFile (getUserPath email)) s) as [[item err] s1].
  destruct item, err as [e|]; try destruct (is_ErrNotFound e); reflexivity.
Qed.

Lemma trace_GetUser `{Models} (S : Storage) (email : string) (s : state S) :
  trace S (GetUser email) s = [Issued (GetFile (getUserPath email))].
Proof.
  unfold GetUser. simpl.
  destruct (handle S (GetFile (getUserPath email)) s) as [[item err] s1].
  destruct item as [item|], err as [e|]; try reflexivity.
  destruct (as_string (Data item)) as [dataStr|]; [|reflexivity].
  destruct (UserFromJSON dataStr); reflexivity.
Qed.

Lemma exists_of_false (r : option Item * option error) :
  exists_of r = Ok false <-> not_found r.
Proof.
  unfold not_found. destruct r as [[it|] [e|]]; simpl.
  - destruct e; simpl; split; intros Hq; try discriminate Hq; auto;
      destruct Hq as [Hq|Hq]; discriminate Hq.
  - split; [discriminate | intros [Hq|Hq]; discriminate Hq].
  - destruct e; simpl; split; intros Hq; try discriminate Hq; auto;
      destruct Hq as [Hq|Hq]; discriminate Hq.
  - split; auto.
Qed.

(** X1: [CreateUser] reads the account's path first, then creates home,
    then home/users, then the file, each at most once and in that order,
    and never updates or deletes.  It stops at the first step that
    fails and returns that step's error under the step's message: a
    failing read, an account already there or a rejected model stop it
    after the read, a failing [CreateDir] right after that [CreateDir],
    a failing serialization after both.  When all of that succeeds the
    fourth call is [CreateFile] with the serialized account that
    [NewUser] built, and its answer and state are what [CreateUser]
    returns. *)
Theorem CreateUser_calls `{Models} (S : Storage) (email password : string) (s : state S) :
  (trace S (CreateUser email password) s = [Issued (GetFile (getUserPath email))] \/
   trace S (CreateUser email password) s =
     [Issued (GetFile (getUserPath email)); Issued (CreateDir ["home"])] \/
   trace S (CreateUser email password) s =
     [Issued (GetFile (getUserPath email)); Issued (CreateDir ["home"]);
      Issued (CreateDir ["home"; "users"])] \/
   exists u j, NewUser email password = Ok u /\ ToJSON u = Ok j /\
     trace S (CreateUser email password) s =
       [Issued (GetFile (getUserPath email)); Issued (CreateDir ["home"]);
        Issued (CreateDir ["home"; "users"]);
        Issued (CreateFile (getUserPath email) (VString j))]) /\
  (fst (run S (CreateUser email password) s) = None ->
   exists u j, NewUser email password = Ok u /\ ToJSON u = Ok j /\
     trace S (CreateUser email password) s =
       [Issued (GetFile (getUserPath email)); Issued (CreateDir ["home"]);
        Issued (CreateDir ["home"; "users"]);
        Issued (CreateFile (getUserPath email) (VString j))]) /\
  (forall it e, fetch S (getUserPath email) s = (it, Some e) -> e <> ErrNotFound ->
   trace S (CreateUser email password) s = [Issued (GetFile (getUserPath email))] /\
   fst (run S (CreateUser email password) s)
     = Some (Wrapf "error checking user existence" e)) /\
  (forall it, fetch S (getUserPath email) s = (Some it, None) ->
   trace S (CreateUser email password) s = [Issued (GetFile (getUserPath email))] /\
   fst (run S (CreateUser email password) s) = Some (Errorf "user already exists")) /\
  (forall e, not_found (fetch S (getUserPath email) s) ->
   NewUser email password = Err e ->
   trace S (CreateUser email password) s = [Issued (GetFile (getUserPath email))] /\
   fst (run S (CreateUser email password) s)
     = Some (Wrapf "error creating user model" e)) /\
  (forall u, not_found (fetch S (getUserPath email) s) ->
   NewUser email password = Ok u ->
   (forall e sa,
      handle S (CreateDir ["home"]) (snd (handle S (GetFile (getUserPath email)) s))
        = (Some e, sa) ->
      trace S (CreateUser email password) s =
        [Issued (GetFile (getUserPath email)); Issued (CreateDir ["home"])] /\
      run S (CreateUser email password) s
        = (Some (Wrapf "error creating home directory" e), sa)) /\
   (forall sa e sb,
      handle S (CreateDir ["home"]) (snd (handle S (GetFile (getUserPath email)) s))
        = (None, sa) ->
      handle S (CreateDir ["home"; "users"]) sa = (Some e, sb) ->
      trace S (CreateUser email password) s =
        [Issued (GetFile (getUserPath email)); Issued (CreateDir ["home"]);
         Issued (CreateDir ["home"; "users"])] /\
      run S (CreateUser email password) s
        = (Some (Wrapf "error creating users directory" e), sb)) /\
   (forall sa sb e,
      handle S (CreateDir ["home"]) (snd (handle S (GetFile (getUserPath email)) s))
        = (None, sa) ->
      handle S (CreateDir ["home"; "users"]) sa = (None, sb) ->
      ToJSON u = Err e ->
      trace S (CreateUser email password) s =
        [Issued (GetFile (getUserPath email)); Issued (CreateDir ["home"]);
         Issued (CreateDir ["home"; "users"])] /\
      run S (CreateUser email password) s
        = (Some (Wrapf "error serializing user data" e), sb)) /\
   (forall sa sb j,
      handle S (CreateDir ["home"]) (snd (handle S (GetFile (getUserPath email)) s))
        = (None, sa) ->
      handle S (CreateDir ["home"; "users"]) sa = (None, sb) ->
      ToJSON u = Ok j ->
      trace S (CreateUser email password) s =
        [Issued (GetFile (getUserPath email)); Issued (CreateDir ["home"]);
         Issued (CreateDir ["home"; "users"]);
         Issued (CreateFile (getUserPath email) (VString j))] /\
      run S (CreateUser email password) s
        = handle S (CreateFile (getUserPath email) (VString j)) sb)).
Proof.
  unfold CreateUser. rewrite trace_bind, run_bind, trace_UserExists, run_UserExists.
  simpl fst. simpl snd.
  set (s1 := snd (handle S (GetFile (getUserPath email)) s)).
  split; [|split; [|split; [|split; [|split]]]].
  - destruct (exists_of (fetch S (getUserPath email) s)) as [[|]|e]; simpl;
      try (left; reflexivity).
    destruct (NewUser email password) as [u|e]; simpl; try (left; reflexivity).
    destruct (handle S (CreateDir ["home"]) s1) as [[e1|] sa]; simpl.
    { right; left; reflexivity. }
    destruct (handle S (CreateDir ["home"; UserDir]) sa) as [[e2|] sb]; simpl.
    { right; right; left; reflexivity. }
    destruct (ToJSON u) as [j|e] eqn:Hj; simpl.
    2: { right; right; left; reflexivity. }
    destruct (handle S (CreateFile (getUserPath email) (VString j)) sb) as [r sc]; simpl.
    right; right; right. exists u, j. auto.
  - destruct (exists_of (fetch S (getUserPath email) s)) as [[|]|e]; simpl;
      try (intros Hn; discriminate Hn).
    destruct (NewUser email password) as [u|e]; simpl; try (intros Hn; discriminate Hn).
    destruct (handle S (CreateDir ["home"]) s1) as [[e1|] sa]; simpl;
      try (intros Hn; discriminate Hn).
    destruct (handle S (CreateDir ["home"; UserDir]) sa) as [[e2|] sb]; simpl;
      try (intros Hn; discriminate Hn).
    destruct (ToJSON u) as [j|e] eqn:Hj; simpl; try (intros Hn; discriminate Hn).
    destruct (handle S (CreateFile (getUserPath email) (VString j)) sb) as [r sc]; simpl.
    intros _. exists u, j. auto.
  - intros it e Hf Hne. rewrite Hf.
    assert (is_ErrNotFound e = false) as Hb by (destruct e; simpl; congruence).
    destruct it; simpl; rewrite Hb; split; reflexivity.
  - intros it Hf. rewrite Hf. split; reflexivity.
  - intros e Hnf Hnew. apply exists_of_false in Hnf. rewrite Hnf. simpl.
    rewrite Hnew. split; reflexivity.
  - intros u Hnf Hnew. apply exists_of_false in Hnf. rewrite Hnf. simpl.
    rewrite Hnew. simpl. split; [|split; [|split]].
    + intros e sa H1. rewrite H1. split; reflexivity.
    + intros sa e sb H1 H2. rewrite H1. simpl. unfold UserDir in *. rewrite H2.
      split; reflexivity.
    + intros sa sb e H1 H2 Hj. rewrite H1. simpl. unfold UserDir in *. rewrite H2.
      simpl. rewrite Hj. split; reflexivity.
    + intros sa sb j H1 H2 Hj. rewrite H1. simpl. unfold UserDir in *. rewrite H2.
      simpl. rewrite Hj. simpl.
      destruct (handle S (CreateFile (getUserPath email) (VString j)) sb).
      split; reflexivity.
Qed.

Lemma CreateUser_calls_witness :
  (fst (run (PathStore AbsentAsNil) (@CreateUser RefModels "u@x.com" "secret1") ∅) = None /\
   exists u j, @NewUser RefModels "u@x.com" "secret1" = Ok u /\ @ToJSON RefModels u = Ok j /\
     trace (PathStore AbsentAsNil) (@CreateUser RefModels "u@x.com" "secret1") ∅ =
       [Issued (GetFile (getUserPath "u@x.com")); Issued (CreateDir ["home"]);
        Issued (CreateDir ["home"; "users"]);
        Issued (CreateFile (getUserPath "u@x.com") (VString j))]) /\
  (trace (PathStore AbsentAsNil) (@CreateUser RefModels "u@x.com" "secret1")
     (home_is_a_file AbsentAsNil) =
     [Issued (GetFile (getUserPath "u@x.com")); Issued (CreateDir ["home"])] /\
   run (PathStore AbsentAsNil) (@CreateUser RefModels "u@x.com" "secret1")
     (home_is_a_file AbsentAsNil) =
     (Some (Wrapf "error creating home directory" ErrAlreadyExists),
      home_is_a_file AbsentAsNil)).
Proof.
  assert (Hn : fst (run (PathStore AbsentAsNil) (@CreateUser RefModels "u@x.com" "secret1") ∅)
               = None) by (vm_compute; reflexivity).
  split.
  - split; [exact Hn|].
    exact (proj1 (proj2 (@CreateUser_calls RefModels (PathStore AbsentAsNil)
                           "u@x.com" "secret1" ∅)) Hn).
  - pose proof (@CreateUser_calls RefModels (PathStore AbsentAsNil) "u@x.com" "secret1"
                  (home_is_a_file AbsentAsNil)) as (_ & _ & _ & _ & _ & Hw).
    apply (proj1 (Hw (mkUser "u@x.com" "$ref$secret1" false EmptyString)
                    (or_intror eq_refl) eq_refl)).
    reflexivity.
Defined.

(** X2: [CreateUser] makes a call other than its one [GetFile] only when
    that [GetFile] reported no account and [NewUser] accepted the email
    and password: for an existing account, a failing read or a rejected
    model nothing is created. *)
Theorem CreateUser_writes_only_when_absent `{Models} (S : Storage)
    (email password : string) (s : state S) :
  trace S (CreateUser email password) s <> [Issued (GetFile (getUserPath email))] ->
  not_found (fetch S (getUserPath email) s) /\
  exists u, NewUser email password = Ok u.
Proof.
  unfold CreateUser. rewrite trace_bind, run_UserExists, trace_UserExists.
  simpl fst. simpl snd. rewrite <- exists_of_false.
  destruct (exists_of (fetch S (getUserPath email) s)) as [[|]|e]; simpl;
    try (intros Hc; exfalso; apply Hc; reflexivity).
  destruct (NewUser email password) as [u|e]; simpl;
    try (intros Hc; exfalso; apply Hc; reflexivity).
  intros _. eauto.
Qed.

Lemma CreateUser_writes_only_when_absent_witness :
  not_found (fetch (PathStore AbsentAsErrNotFound) (getUserPath "u@x.com") ∅) /\
  exists u, @NewUser RefModels "u@x.com" "secret1" = Ok u.
Proof.
  apply (@CreateUser_writes_only_when_absent RefModels (PathStore AbsentAsErrNotFound)
           "u@x.com" "secret1" ∅).
  vm_compute. discriminate.
Defined.

Lemma trace_invoke (S : Storage) {R : Type} (c : call R) (s : state S) :
  trace S (invoke c) s = [Issued c].
Proof. simpl. destruct (handle S c s). reflexivity. Qed.

Lemma update_with_calls `{Models} (S : Storage) (f : User -> result User)
    (email : string) (s : state S) :
  read_modify_write S (update_with f email) f email s.
Proof.
  unfold read_modify_write, update_with, load.
  rewrite trace_bind, run_bind, trace_GetUser.
  destruct (run S (GetUser email) s) as [[u|e] s1]; simpl.
  2: { left. eauto. }
  destruct (f u) as [u'|e] eqn:Hf; simpl.
  2: { left. eauto. }
  unfold setUser. destruct (ToJSON u') as [j|e] eqn:Hj.
  2: { left. simpl. eauto. }
  right. exists u, u', j. rewrite trace_invoke. auto.
Qed.

(** X3: [UpdatePassword], [SetUserDongle] and [ConfirmUser] each read
    the account once and then either fail without another call, or make
    exactly one more call, an [UpdateFile] of the changed account at the
    path of the email held in the record; they never create or delete. *)
Theorem mutators_read_then_write_once `{Models} (S : Storage)
    (email newPassword dongle : string) (s : state S) :
  read_modify_write S (UpdatePassword email newPassword) (SetPassword newPassword) email s /\
  read_modify_write S (SetUserDongle email dongle) (fun u => Ok (SetDongle dongle u)) email s /\
  read_modify_write S (ConfirmUser email) (fun u => Ok (SetConfirmed u)) email s.
Proof.
  rewrite UpdatePassword_shape, SetUserDongle_shape, ConfirmUser_shape.
  repeat split; apply update_with_calls.
Qed.

(** X4: [DeleteUser] answers "user does not exist" without calling
    [DeleteFile] when [GetFile] reports no file, in either encoding;
    hands on any other error of [GetFile] as it is; and when [GetFile]
    returns an item, whatever its payload, calls [DeleteFile] once on
    that path and returns its answer. *)
Theorem DeleteUser_outcomes (S : Storage) (email : string) (s : state S) :
  (not_found (fetch S (getUserPath email) s) ->
   fst (run S (DeleteUser email) s) = Some (Errorf "user does not exist") /\
   trace S (DeleteUser email) s = [Issued (GetFile (getUserPath email))]) /\
  (forall it e, fetch S (getUserPath email) s = (it, Some e) -> e <> ErrNotFound ->
   fst (run S (DeleteUser email) s) = Some e /\
   trace S (DeleteUser email) s = [Issued (GetFile (getUserPath email))]) /\
  (forall it, fetch S (getUserPath email) s = (Some it, None) ->
   fst (run S (DeleteUser email) s) =
     fst (handle S (DeleteFile (getUserPath email))
            (snd (handle S (GetFile (getUserPath email)) s))) /\
   trace S (DeleteUser email) s =
     [Issued (GetFile (getUserPath email)); Issued (DeleteFile (getUserPath email))]).
Proof.
  unfold DeleteUser. rewrite trace_bind, run_bind, trace_UserExists, run_UserExists.
  simpl fst. simpl snd.
  set (s1 := snd (handle S (GetFile (getUserPath email)) s)).
  split; [|split].
  - intros Hnf. apply exists_of_false in Hnf. rewrite Hnf. split; reflexivity.
  - intros it e Hf Hne. rewrite Hf.
    assert (is_ErrNotFound e = false) as Hb by (destruct e; simpl; congruence).
    destruct it; simpl; rewrite Hb; split; reflexivity.
  - intros it Hf. rewrite Hf. simpl.
    destruct (handle S (DeleteFile (getUserPath email)) s1). split; reflexivity.
Qed.

Lemma DeleteUser_outcomes_witness :
  fst (run (PathStore AbsentAsErrNotFound) (DeleteUser "a@b.co") ∅)
    = Some (Errorf "user does not exist") /\
  trace (PathStore AbsentAsErrNotFound) (DeleteUser "a@b.co") ∅
    = [Issued (GetFile (getUserPath "a@b.co"))].
Proof.
  apply (proj1 (DeleteUser_outcomes (PathStore AbsentAsErrNotFound) "a@b.co" ∅)).
  left. reflexivity.
Defined.

(** ** Who may authenticate *)

(** X5: [AuthenticateUser] returns true only for an account that loads,
    is confirmed and whose stored hash verifies the password; and it
    fails only with the error of the load or, for a loaded unconfirmed
    account, with "user not confirmed": a wrong password is never an
    error. *)
Theorem AuthenticateUser_true_iff `{Models} (S : Storage) (email password : string)
    (s : state S) :
  (fst (run S (AuthenticateUser email password) s) = Ok true <->
   exists u, load S email s = Ok u /\ Confirmed u = true /\
     CheckPasswordHash password (Password u) = true) /\
  (forall e, fst (run S (AuthenticateUser email password) s) = Err e ->
   load S email s = Err e \/
   (e = Errorf "user not confirmed" /\
    exists u, load S email s = Ok u /\ Confirmed u = false)).
Proof.
  unfold AuthenticateUser, load. rewrite run_bind.
  destruct (run S (GetUser email) s) as [[u|e0] s1]; simpl.
  - unfold GetConfirmed, Authenticate. destruct (Confirmed u) eqn:Hc; simpl; split.
    + split.
      * intros [= Hp]. exists u. auto.
      * intros (u0 & [= <-] & _ & Hp). rewrite Hp. reflexivity.
    + intros e He. discriminate He.
    + split.
      * intros He. discriminate He.
      * intros (u0 & [= <-] & Hc0 & _). congruence.
    + intros e [= <-]. right. split; [reflexivity|]. exists u. auto.
  - split.
    + split; [intros He; discriminate He | intros (u & Hu & _); discriminate Hu].
    + intros e [= <-]. left. reflexivity.
Qed.

(** ** Records that cannot be read *)

Lemma update_with_load_fails `{Models} (S : Storage) (f : User -> result User)
    (email : string) (s : state S) (e : error) :
  load S email s = Err e ->
  fst (run S (update_with f email) s) = Some e /\
  trace S (update_with f email) s = [Issued (GetFile (getUserPath email))].
Proof.
  unfold load, update_with. intros Hl. rewrite run_bind, trace_bind, trace_GetUser.
  destruct (run S (GetUser email) s) as [r s1]. simpl in Hl. subst r. split; reflexivity.
Qed.

(** X6: a file whose payload does not load as an account still counts as
    an existing account.  [UserExists] answers true and [CreateUser]
    refuses with "user already exists"; the three mutators fail with the
    error of the load and write nothing; [DeleteUser] goes on to call
    [DeleteFile]. *)
Theorem unreadable_record `{Models} (S : Storage) (email : string) (s : state S)
    (it : Item) (e : error) :
  fetch S (getUserPath email) s = (Some it, None) ->
  load S email s = Err e ->
  fst (run S (UserExists email) s) = Ok true /\
  (forall password,
     fst (run S (CreateUser email password) s) = Some (Errorf "user already exists")) /\
  (forall newPassword,
     fst (run S (UpdatePassword email newPassword) s) = Some e /\
     trace S (UpdatePassword email newPassword) s = [Issued (GetFile (getUserPath email))]) /\
  (forall dongle,
     fst (run S (SetUserDongle email dongle) s) = Some e /\
     trace S (SetUserDongle email dongle) s = [Issued (GetFile (getUserPath email))]) /\
  (fst (run S (ConfirmUser email) s) = Some e /\
   trace S (ConfirmUser email) s = [Issued (GetFile (getUserPath email))]) /\
  trace S (DeleteUser email) s =
    [Issued (GetFile (getUserPath email)); Issued (DeleteFile (getUserPath email))].
Proof.
  intros Hf Hl. split; [|split; [|split; [|split; [|split]]]].
  - rewrite run_UserExists, Hf. reflexivity.
  - intros password. unfold CreateUser. rewrite run_bind, run_UserExists, Hf. reflexivity.
  - intros newPassword. rewrite UpdatePassword_shape. apply update_with_load_fails, Hl.
  - intros dongle. rewrite SetUserDongle_shape. apply update_with_load_fails, Hl.
  - rewrite ConfirmUser_shape. apply update_with_load_fails, Hl.
  - unfold DeleteUser. rewrite trace_bind, trace_UserExists, run_UserExists, Hf. simpl.
    destruct (handle S (DeleteFile (getUserPath email))
                (snd (handle S (GetFile (getUserPath email)) s))).
    reflexivity.
Qed.

Lemma AuthenticateUser_true_iff_witness :
  fst (run (PathStore AbsentAsNil) (@AuthenticateUser RefModels "u@x.com" "secret1")
         (confirmed_account AbsentAsNil)) = Ok true.
Proof.
  apply (proj1 (@AuthenticateUser_true_iff RefModels (PathStore AbsentAsNil)
                  "u@x.com" "secret1" (confirmed_account AbsentAsNil))).
  exists (mkUser "u@x.com" "$ref$secret1" true EmptyString).
  repeat split; vm_compute; reflexivity.
Defined.

Lemma unreadable_record_witness :
  fst (run (PathStore AbsentAsNil) (UserExists "u@x.com") (unreadable_store AbsentAsNil))
    = Ok true /\
  fst (run (PathStore AbsentAsNil) (@ConfirmUser RefModels "u@x.com")
         (unreadable_store AbsentAsNil))
    = Some (Errorf "invalid user data format").
Proof.
  assert (Hf : fetch (PathStore AbsentAsNil) (getUserPath "u@x.com")
                 (unreadable_store AbsentAsNil)
               = (Some (mkItem (getUserPath "u@x.com") (VOther "blob")), None))
    by (vm_compute; reflexivity).
  assert (Hl : @load RefModels (PathStore AbsentAsNil) "u@x.com"
                 (unreadable_store AbsentAsNil)
               = Err (Errorf "invalid user data format"))
    by (vm_compute; reflexivity).
  pose proof (@unreadable_record RefModels (PathStore AbsentAsNil) "u@x.com"
                (unreadable_store AbsentAsNil) _ _ Hf Hl) as (H1 & _ & _ & _ & [H2 _] & _).
  split; [exact H1 | exact H2].
Defined.

(** ** Accounts beside one another *)

Section Neighbours.
Context `{M : Models} {ML : ModelLaws M} (S : Storage) {SL : StorageLaws S}.

(** X7: a request about one email leaves the account of every other
    email as it was, provided the record it loads is filed under its own
    email. *)
Theorem requests_touch_one_account (r : request) (s : state S) (e' : string) :
  (forall u, load S (target r) s = Ok u -> Email u = target r) ->
  e' <> target r ->
  load S e' (serve S r s) = load S e' s.
Proof.
  intros Hwf Hne.
  assert (Hp : forall e1, e' <> e1 -> getUserPath e' <> getUserPath e1).
  { intros e1 Hd Hq. apply Hd, getUserPath_inj, Hq. }
  destruct r as [e1|e1|e1 pw|e1 pw|e1 pw|e1 d|e1|e1|e1]; cbn [serve target] in *.
  - rewrite (reads_only_run S _ get_read_only (reads_only_UserExists e1)). reflexivity.
  - rewrite (reads_only_run S _ get_read_only (reads_only_GetUser e1)). reflexivity.
  - apply load_fetch. apply (CreateUser_effect S e1 pw s). intros _. apply Hp, Hne.
  - rewrite (reads_only_run S _ get_read_only (reads_only_AuthenticateUser e1 pw)).
    reflexivity.
  - rewrite UpdatePassword_shape. apply load_fetch.
    pose proof (update_with_effect S (SetPassword pw) e1 s
                  (fun u u' H => proj1 (SetPassword_keeps pw u u' H)) Hwf) as He.
    destruct (fst (run S (update_with (SetPassword pw) e1) s)); [apply He|].
    destruct He as (_ & _ & _ & _ & _ & Hfr). apply Hfr, Hp, Hne.
  - rewrite SetUserDongle_shape. apply load_fetch.
    pose proof (update_with_effect S (fun u => Ok (SetDongle d u)) e1 s
                  (fun u u' H => proj1 (SetDongle_keeps d u u' H)) Hwf) as He.
    destruct (fst (run S (update_with (fun u => Ok (SetDongle d u)) e1) s)); [apply He|].
    destruct He as (_ & _ & _ & _ & _ & Hfr). apply Hfr, Hp, Hne.
  - rewrite (reads_only_run S _ get_read_only (reads_only_GetUserDongle e1)). reflexivity.
  - rewrite ConfirmUser_shape. apply load_fetch.
    pose proof (update_with_effect S (fun u => Ok (SetConfirmed u)) e1 s
                  (fun u u' H => proj1 (SetConfirmed_keeps u u' H)) Hwf) as He.
    destruct (fst (run S (update_with (fun u => Ok (SetConfirmed u)) e1) s)); [apply He|].
    destruct He as (_ & _ & _ & _ & _ & Hfr). apply Hfr, Hp, Hne.
  - apply load_fetch. apply (DeleteUser_effect S e1 s). intros _. apply Hp, Hne.
Qed.

Lemma update_with_misfiled (f : User -> result User) (e : string) (s s' : state S)
    (u u' : User) :
  load S e s = Ok u -> f u = Ok u' -> Email u' = Email u -> Email u <> e ->
  run S (update_with f e) s = (None, s') ->
  load S e s' = Ok u /\ load S (Email u) s' = Ok u'.
Proof.
  intros Hl Hf Hem Hne Hrun. rewrite (run_update_with S), Hl, Hf in Hrun.
  pose proof (setUser_effect S u' s) as He. rewrite Hrun in He. simpl in He.
  destruct He as [Hl' Hfr]. rewrite Hem in Hl', Hfr. split; [|exact Hl'].
  rewrite <- Hl. apply load_fetch, Hfr.
  intros Hq. apply Hne. symmetry. apply getUserPath_inj, Hq.
Qed.

(** X8: the mutators write under the email held in the record, not the
    email they were called with.  Where the file of one email holds a
    record carrying another email, a successful [ConfirmUser],
    [SetUserDongle] or [UpdatePassword] on the first leaves its record
    as it was and replaces the record of the second by the changed
    copy. *)
Theorem mutators_follow_the_record (e dongle newPassword : string) (s : state S) (u : User) :
  load S e s = Ok u -> Email u <> e ->
  (forall s', run S (ConfirmUser e) s = (None, s') ->
     load S e s' = Ok u /\ load S (Email u) s' = Ok (SetConfirmed u)) /\
  (forall s', run S (SetUserDongle e dongle) s = (None, s') ->
     load S e s' = Ok u /\ load S (Email u) s' = Ok (SetDongle dongle u)) /\
  (forall s', run S (UpdatePassword e newPassword) s = (None, s') ->
     load S e s' = Ok u /\
     exists u', SetPassword newPassword u = Ok u' /\ load S (Email u) s' = Ok u').
Proof.
  intros Hl Hne. split; [|split]; intros s' Hrun.
  - rewrite ConfirmUser_shape in Hrun.
    apply (update_with_misfiled _ e s s' u (SetConfirmed u) Hl eq_refl eq_refl Hne Hrun).
  - rewrite SetUserDongle_shape in Hrun.
    apply (update_with_misfiled _ e s s' u (SetDongle dongle u) Hl eq_refl eq_refl Hne Hrun).
  - rewrite UpdatePassword_shape in Hrun.
    destruct (SetPassword newPassword u) as [u'|err] eqn:Hs.
    + destruct (SetPassword_fields newPassword u u' Hs) as (Hem & _).
      destruct (update_with_misfiled _ e s s' u u' Hl Hs Hem Hne Hrun) as [H1 H2].
      split; [exact H1|]. exists u'. auto.
    + rewrite (run_update_with S), Hl, Hs in Hrun. discriminate Hrun.
Qed.

End Neighbours.

Lemma requests_touch_one_account_witness :
  @load RefModels (PathStore AbsentAsNil) "b@y.com"
    (@serve RefModels (PathStore AbsentAsNil) (ReqDeleteUser "u@x.com")
       (@serve RefModels (PathStore AbsentAsNil) (ReqCreateUser "b@y.com" "secret2")
          (confirmed_account AbsentAsNil)))
  = @load RefModels (PathStore AbsentAsNil) "b@y.com"
      (@serve RefModels (PathStore AbsentAsNil) (ReqCreateUser "b@y.com" "secret2")
         (confirmed_account AbsentAsNil)).
Proof.
  apply (@requests_touch_one_account RefModels RefModels_laws (PathStore AbsentAsNil)
           (PathStore_laws AbsentAsNil) (ReqDeleteUser "u@x.com")).
  - intros u Hu. vm_compute in Hu. injection Hu as <-. reflexivity.
  - discriminate.
Defined.

Lemma mutators_follow_the_record_witness :
  @load RefModels (PathStore AbsentAsNil) "a@x.com"
    (@serve RefModels (PathStore AbsentAsNil) (ReqConfirmUser "a@x.com")
       (misfiled_store AbsentAsNil))
  = Ok (mkUser "b@y.com" "$ref$secret0" false "old-token") /\
  @load RefModels (PathStore AbsentAsNil) "b@y.com"
    (@serve RefModels (PathStore AbsentAsNil) (ReqConfirmUser "a@x.com")
       (misfiled_store AbsentAsNil))
  = Ok (mkUser "b@y.com" "$ref$secret0" true "old-token").
Proof.
  assert (Hl : @load RefModels (PathStore AbsentAsNil) "a@x.com" (misfiled_store AbsentAsNil)
               = Ok (mkUser "b@y.com" "$ref$secret0" false "old-token"))
    by (vm_compute; reflexivity).
  assert (Hne : Email (mkUser "b@y.com" "$ref$secret0" false "old-token") <> "a@x.com")
    by discriminate.
  assert (Hrun : run (PathStore AbsentAsNil) (@ConfirmUser RefModels "a@x.com")
                   (misfiled_store AbsentAsNil)
                 = (None, @serve RefModels (PathStore AbsentAsNil) (ReqConfirmUser "a@x.com")
                            (misfiled_store AbsentAsNil)))
    by (vm_compute; reflexivity).
  exact (proj1 (@mutators_follow_the_record RefModels RefModels_laws (PathStore AbsentAsNil)
                  (PathStore_laws AbsentAsNil) "a@x.com" "t" "p"
                  (misfiled_store AbsentAsNil) _ Hl Hne) _ Hrun).
Defined.

(** ** Methods one after another *)

Section Sequences.
Context `{M : Models} {ML : ModelLaws M} (S : Storage) {SL : StorageLaws S}.

(** X9: after a successful [CreateUser] the account exists and is not
    confirmed, so [AuthenticateUser] fails with "user not confirmed"
    for every password, the right one included; once [ConfirmUser] has
    succeeded, the password the account was created with authenticates. *)
Theorem CreateUser_then_authenticate (email password : string) (s s1 : state S) :
  run S (CreateUser email password) s = (None, s1) ->
  fst (run S (UserExists email) s1) = Ok true /\
  (forall password', fst (run S (AuthenticateUser email password') s1)
                     = Err (Errorf "user not confirmed")) /\
  (forall s2, run S (ConfirmUser email) s1 = (None, s2) ->
     fst (run S (AuthenticateUser email password) s2) = Ok true).
Proof.
  intros Hrun. pose proof (CreateUser_effect S email password s) as [Hc _].
  rewrite Hrun in Hc. simpl in Hc. destruct Hc as (_ & u & Hnew & Hl & it & Hit).
  destruct (new_user_fields email password u Hnew) as (Hem & Hcf & Hpw).
  split; [|split].
  - rewrite run_UserExists, Hit. reflexivity.
  - intros password'. rewrite (run_AuthenticateUser S), Hl, Hcf. reflexivity.
  - intros s2 Hconf. rewrite ConfirmUser_shape in Hconf.
    assert (Hwf : forall v, load S email s1 = Ok v -> Email v = email).
    { intros v Hv. rewrite Hl in Hv. injection Hv as <-. exact Hem. }
    assert (Hid : forall v v', Ok (SetConfirmed v) = Ok v' -> Email v' = Email v).
    { intros v v' [= <-]. reflexivity. }
    pose proof (update_with_effect S (fun u => Ok (SetConfirmed u)) email s1 Hid Hwf) as He.
    rewrite Hconf in He. simpl in He.
    destruct He as (u0 & u' & Hl0 & Hf & Hl' & _).
    rewrite Hl in Hl0. injection Hl0 as <-. injection Hf as <-.
    rewrite (run_AuthenticateUser S), Hl'. simpl. rewrite Hpw. reflexivity.
Qed.

Lemma mutator_record (f : User -> result User) (email : string) (s s' : state S) (u : User) :
  load S email s = Ok u -> Email u = email ->
  (forall v v', f v = Ok v' -> Email v' = Email v) ->
  run S (update_with f email) s = (None, s') ->
  exists u', f u = Ok u' /\ load S email s' = Ok u' /\
    forall q, q <> getUserPath email -> fetch S q s' = fetch S q s.
Proof.
  intros Hl Hem Hid Hrun.
  assert (Hwf : forall v, load S email s = Ok v -> Email v = email).
  { intros v Hv. rewrite Hl in Hv. injection Hv as <-. exact Hem. }
  pose proof (update_with_effect S f email s Hid Hwf) as He.
  rewrite Hrun in He. simpl in He.
  destruct He as (u0 & u' & Hl0 & Hf & Hl' & Hfr).
  rewrite Hl in Hl0. injection Hl0 as <-. eauto.
Qed.

Lemma SetDongle_email (d : string) (v v' : User) :
  Ok (SetDongle d v) = Ok v' -> Email v' = Email v.
Proof. intros [= <-]. reflexivity. Qed.

Lemma SetConfirmed_email (v v' : User) :
  Ok (SetConfirmed v) = Ok v' -> Email v' = Email v.
Proof. intros [= <-]. reflexivity. Qed.

Lemma SetPassword_email (pw : string) (v v' : User) :
  SetPassword pw v = Ok v' -> Email v' = Email v.
Proof. intros Hv. apply (SetPassword_fields pw v v' Hv). Qed.

(** X10: [ConfirmUser] on an account that is already confirmed succeeds
    by rewriting the same record: afterwards every account loads as it
    did before. *)
Theorem ConfirmUser_again (email : string) (s s' : state S) (u : User) :
  load S email s = Ok u -> Email u = email -> Confirmed u = true ->
  run S (ConfirmUser email) s = (None, s') ->
  forall e, load S e s' = load S e s.
Proof.
  intros Hl Hem Hc Hrun e. rewrite ConfirmUser_shape in Hrun.
  destruct (mutator_record _ email s s' u Hl Hem SetConfirmed_email Hrun)
    as (u' & [= <-] & Hl' & Hfr).
  destruct (string_dec e email) as [->|Hne].
  - rewrite Hl', Hl. destruct u as [em pw c d]. simpl in Hc. subst c. reflexivity.
  - apply load_fetch, Hfr. intros Hq. apply Hne, getUserPath_inj, Hq.
Qed.

(** X11: a mutator leaves the answers that rest on the other fields as
    they were.  After [UpdatePassword] the dongle and the confirmation
    are as before; after [SetUserDongle] [AuthenticateUser] answers as
    before for every password; after [ConfirmUser] the dongle is as
    before and [AuthenticateUser] returns the hash check of the stored
    password. *)
Theorem mutators_keep_other_answers (email : string) (s : state S) (u : User) :
  load S email s = Ok u -> Email u = email ->
  (forall newPassword s', run S (UpdatePassword email newPassword) s = (None, s') ->
     fst (run S (GetUserDongle email) s') = fst (run S (GetUserDongle email) s) /\
     (confirmed_at S email s' <-> confirmed_at S email s)) /\
  (forall dongle s', run S (SetUserDongle email dongle) s = (None, s') ->
     forall password,
       fst (run S (AuthenticateUser email password) s') =
       fst (run S (AuthenticateUser email password) s)) /\
  (forall s', run S (ConfirmUser email) s = (None, s') ->
     fst (run S (GetUserDongle email) s') = fst (run S (GetUserDongle email) s) /\
     forall password,
       fst (run S (AuthenticateUser email password) s') =
       Ok (CheckPasswordHash password (Password u))).
Proof.
  intros Hl Hem. split; [|split].
  - intros newPassword s' Hrun. rewrite UpdatePassword_shape in Hrun.
    destruct (mutator_record _ email s s' u Hl Hem (SetPassword_email newPassword) Hrun)
      as (u' & Hs & Hl' & _).
    destruct (SetPassword_fields newPassword u u' Hs) as (_ & Hc' & Hd' & _). split.
    + rewrite !(run_GetUserDongle S), Hl', Hl, Hd'. reflexivity.
    + unfold confirmed_at. rewrite Hl', Hl.
      split; intros (v & [= <-] & Hc); eexists; split; try reflexivity; congruence.
  - intros dongle s' Hrun password. rewrite SetUserDongle_shape in Hrun.
    destruct (mutator_record _ email s s' u Hl Hem (SetDongle_email dongle) Hrun)
      as (u' & [= <-] & Hl' & _).
    rewrite !(run_AuthenticateUser S), Hl', Hl. reflexivity.
  - intros s' Hrun. rewrite ConfirmUser_shape in Hrun.
    destruct (mutator_record _ email s s' u Hl Hem SetConfirmed_email Hrun)
      as (u' & [= <-] & Hl' & _). split.
    + rewrite !(run_GetUserDongle S), Hl', Hl. reflexivity.
    + intros password. rewrite (run_AuthenticateUser S), Hl'. reflexivity.
Qed.

(** X12: of two successful [SetUserDongle] in a row the second wins: the
    stored record is the first one with the second token, as if the
    first call had not been made. *)
Theorem SetUserDongle_last_wins (email t1 t2 : string) (s s1 s2 : state S) (u : User) :
  load S email s = Ok u -> Email u = email ->
  run S (SetUserDongle email t1) s = (None, s1) ->
  run S (SetUserDongle email t2) s1 = (None, s2) ->
  load S email s2 = Ok (mkUser (Email u) (Password u) (Confirmed u) t2) /\
  run S (GetUserDongle email) s2 = (Ok t2, s2).
Proof.
  intros Hl Hem H1 H2. rewrite SetUserDongle_shape in H1, H2.
  destruct (mutator_record _ email s s1 u Hl Hem (SetDongle_email t1) H1)
    as (u1 & [= <-] & Hl1 & _).
  destruct (mutator_record _ email s1 s2 _ Hl1 Hem (SetDongle_email t2) H2)
    as (u2 & [= <-] & Hl2 & _).
  split; [exact Hl2|]. rewrite (run_GetUserDongle S), Hl2. reflexivity.
Qed.

(** X13: that every readable record is filed under its own email is kept
    by every request, hence by every sequence of requests. *)
Theorem records_stay_filed (rs : list request) (s : state S) :
  well_formed S s -> well_formed S (serve_all S rs s).
Proof. apply (serve_all_well_formed S). Qed.

End Sequences.

(** ** Email validation, further *)

Lemma count_byte_app (c : ascii) (s t : string) :
  count_byte c (s ++ t) = count_byte c s + count_byte c t.
Proof.
  induction s as [|a s IH].
  - reflexivity.
  - change (String a s ++ t) with (String a (s ++ t)).
    cbn [count_byte]. rewrite IH. lia.
Qed.

Lemma length_app (s t : string) :
  String.length (s ++ t) = String.length s + String.length t.
Proof.
  induction s as [|a s IH].
  - reflexivity.
  - change (String a s ++ t) with (String a (s ++ t)).
    cbn [String.length]. rewrite IH. reflexivity.
Qed.

(** X14: what [ValidateEmail] accepts it accepts with any bytes put
    before or after it, the path separator among them: the check bounds
    neither the alphabet nor the shape of an email. *)
Theorem ValidateEmail_extends (email before after : string) :
  ValidateEmail email = true ->
  ValidateEmail (before ++ email ++ after) = true.
Proof.
  unfold ValidateEmail. rewrite !andb_true_iff, !Contains_at, !Nat.ltb_lt.
  rewrite !count_byte_app, !length_app. lia.
Qed.

Lemma ValidateEmail_extends_witness :
  ValidateEmail "a@b.co" = true /\ ValidateEmail ("../" ++ "a@b.co" ++ "/../x") = true.
Proof.
  split; [reflexivity|].
  apply (ValidateEmail_extends "a@b.co" "../" "/../x"). reflexivity.
Defined.

(** ** The current user *)

Lemma byte_is_last (s : string) (c : ascii) :
  byte_is s (String.length s - 1) c = true <-> exists w, s = w ++ String c EmptyString.
Proof.
  unfold byte_is. induction s as [|a s IH].
  - simpl. split; [discriminate|]. intros [[|b w] Hw]; discriminate Hw.
  - destruct s as [|b s'].
    + simpl. rewrite Ascii.eqb_eq. split.
      * intros ->. exists EmptyString. reflexivity.
      * intros [[|a' w] Hw].
        -- injection Hw as ->. reflexivity.
        -- change (String a' w ++ String c EmptyString)
             with (String a' (w ++ String c EmptyString)) in Hw.
           injection Hw as _ Hw. destruct w; discriminate Hw.
    + replace (String.length (String a (String b s')) - 1)
        with (S (String.length (String b s') - 1))
        by (cbn [String.length]; lia).
      change (get (S (String.length (String b s') - 1)) (String a (String b s')))
        with (get (String.length (String b s') - 1) (String b s')).
      rewrite IH. split.
      * intros [w ->]. exists (String a w). reflexivity.
      * intros [[|a' w] Hw].
        -- discriminate Hw.
        -- change (String a' w ++ String c EmptyString)
             with (String a' (w ++ String c EmptyString)) in Hw.
           injection Hw as _ Hw. eauto.
Qed.

Lemma quoted_cookie (v : string) :
  (0 <? String.length v)%nat && byte_is v 0 dquote
    && byte_is v (String.length v - 1) dquote = true <->
  v = quote \/ exists w, v = quote ++ w ++ quote.
Proof.
  rewrite !andb_true_iff, byte_is_last. split.
  - intros [[_ Hfirst] [w Hw]]. destruct w as [|a w].
    + left. exact Hw.
    + right. exists w. subst v. unfold byte_is in Hfirst.
      change (get 0 (String a w ++ String dquote EmptyString)) with (Some a) in Hfirst.
      apply Ascii.eqb_eq in Hfirst. subst a. reflexivity.
  - intros [->|[w ->]].
    + repeat split. exists EmptyString. reflexivity.
    + repeat split. exists (quote ++ w). unfold quote.
      change (String dquote EmptyString ++ w ++ String dquote EmptyString)
        with (String dquote (w ++ String dquote EmptyString)).
      reflexivity.
Qed.

(** X15: [getCurrentUser] returns the cookie as it is, unless the cookie
    is one quote byte or begins and ends with a quote byte; then it
    returns what the JSON decoding yields, and the empty string when the
    decoding fails.  A missing cookie gives the empty string. *)
Theorem getCurrentUser_cases (Unmarshal : string -> result string) (v : string) :
  ((v = quote \/ exists w, v = quote ++ w ++ quote) ->
   getCurrentUser Unmarshal (Ok v) =
     match Unmarshal v with Ok user => user | Err _ => EmptyString end) /\
  (~ (v = quote \/ exists w, v = quote ++ w ++ quote) ->
   getCurrentUser Unmarshal (Ok v) = v) /\
  (forall e, getCurrentUser Unmarshal (Err e) = EmptyString).
Proof.
  unfold getCurrentUser. split; [|split].
  - intros Hq. apply quoted_cookie in Hq. rewrite Hq.
    destruct (Unmarshal v); reflexivity.
  - intros Hq.
    destruct ((0 <? String.length v)%nat && byte_is v 0 dquote
              && byte_is v (String.length v - 1) dquote) eqn:Hc; [|reflexivity].
    exfalso. apply Hq, quoted_cookie, Hc.
  - reflexivity.
Qed.

Lemma getCurrentUser_cases_witness :
  getCurrentUser (fun _ => Err ErrMalformed) (Ok quote) = EmptyString /\
  getCurrentUser (fun _ => Err ErrMalformed) (Ok "u@x.com") = "u@x.com".
Proof.
  split.
  - apply (proj1 (getCurrentUser_cases (fun _ => Err ErrMalformed) quote)).
    left. reflexivity.
  - apply (proj1 (proj2 (getCurrentUser_cases (fun _ => Err ErrMalformed) "u@x.com"))).
    intros [Hq|[w Hq]]; discriminate Hq.
Defined.

Lemma getCurrentUser_cases_aux (Unmarshal : string -> result string) (v : string) :
  ((v = quote \/ exists w, v = quote ++ w ++ quote) /\
   getCurrentUser Unmarshal (Ok v) =
     match Unmarshal v with Ok user => user | Err _ => EmptyString end) \/
  (~ (v = quote \/ exists w, v = quote ++ w ++ quote) /\
   getCurrentUser Unmarshal (Ok v) = v).
Proof.
  unfold getCurrentUser.
  destruct ((0 <? String.length v)%nat && byte_is v 0 dquote
            && byte_is v (String.length v - 1) dquote) eqn:Hc.
  - left. split; [apply quoted_cookie, Hc|]. destruct (Unmarshal v); reflexivity.
  - right. split; [|reflexivity]. intros Hq. apply quoted_cookie in Hq. congruence.
Qed.

(** X16: the home route redirects with status 302, to /login exactly
    when [getCurrentUser] comes back empty: no cookie, an empty cookie,
    or a quoted cookie whose decoding fails or yields the empty string;
    and to /save otherwise. *)
Theorem home_redirects (Unmarshal : string -> result string) (cookie : result string) :
  (home Unmarshal cookie = (302, "/login") \/ home Unmarshal cookie = (302, "/save")) /\
  (home Unmarshal cookie = (302, "/login") <->
   (exists e, cookie = Err e) \/ cookie = Ok EmptyString \/
   exists v, cookie = Ok v /\ (v = quote \/ exists w, v = quote ++ w ++ quote) /\
     ((exists e, Unmarshal v = Err e) \/ Unmarshal v = Ok EmptyString)).
Proof.
  unfold home, StatusFound.
  destruct (String.eqb (getCurrentUser Unmarshal cookie) EmptyString) eqn:He.
  - split; [left; reflexivity|]. split; [intros _ | reflexivity].
    apply String.eqb_eq in He. destruct cookie as [v|e]; [|left; eauto].
    right. destruct (getCurrentUser_cases_aux Unmarshal v) as [[Hq Hv]|[Hq Hv]].
    + right. exists v. rewrite Hv in He. split; [reflexivity|]. split; [exact Hq|].
      destruct (Unmarshal v) as [user|e]; [right; congruence | left; eauto].
    + left. rewrite Hv in He. congruence.
  - split; [right; reflexivity|]. split; [intros Hc; discriminate Hc|].
    apply String.eqb_neq in He. intros Hc. exfalso. apply He.
    destruct Hc as [[e ->] | [-> | (v & -> & Hq & Hu)]]; try reflexivity.
    unfold getCurrentUser. apply quoted_cookie in Hq. rewrite Hq.
    destruct Hu as [[e ->] | ->]; reflexivity.
Qed.

(** ** Instances of the further properties on the reference backend *)

Lemma home_redirects_witness :
  home (fun _ => Err ErrMalformed) (Ok quote) = (302, "/login").
Proof.
  apply (proj2 (home_redirects (fun _ => Err ErrMalformed) (Ok quote))).
  right; right. exists quote. split; [reflexivity|]. split; [left; reflexivity|].
  left. exists ErrMalformed. reflexivity.
Defined.

Lemma CreateUser_then_authenticate_witness :
  fst (run (PathStore AbsentAsNil) (@AuthenticateUser RefModels "u@x.com" "secret1")
         (fresh_account AbsentAsNil)) = Err (Errorf "user not confirmed") /\
  fst (run (PathStore AbsentAsNil) (@AuthenticateUser RefModels "u@x.com" "secret1")
         (confirmed_account AbsentAsNil)) = Ok true.
Proof.
  assert (H1 : run (PathStore AbsentAsNil) (@CreateUser RefModels "u@x.com" "secret1") ∅
               = (None, fresh_account AbsentAsNil)) by (vm_compute; reflexivity).
  assert (H2 : run (PathStore AbsentAsNil) (@ConfirmUser RefModels "u@x.com")
                 (fresh_account AbsentAsNil)
               = (None, confirmed_account AbsentAsNil)) by (vm_compute; reflexivity).
  pose proof (@CreateUser_then_authenticate RefModels RefModels_laws (PathStore AbsentAsNil)
                (PathStore_laws AbsentAsNil) "u@x.com" "secret1" ∅ _ H1) as (_ & Ha & Hb).
  split; [apply Ha | apply (Hb _ H2)].
Defined.

Lemma ConfirmUser_again_witness :
  @load RefModels (PathStore AbsentAsNil) "u@x.com"
    (@serve RefModels (PathStore AbsentAsNil) (ReqConfirmUser "u@x.com")
       (confirmed_account AbsentAsNil))
  = @load RefModels (PathStore AbsentAsNil) "u@x.com" (confirmed_account AbsentAsNil).
Proof.
  apply (@ConfirmUser_again RefModels RefModels_laws (PathStore AbsentAsNil)
           (PathStore_laws AbsentAsNil) "u@x.com" (confirmed_account AbsentAsNil) _
           (mkUser "u@x.com" "$ref$secret1" true EmptyString)).
  - vm_compute. reflexivity.
  - reflexivity.
  - reflexivity.
  - vm_compute. reflexivity.
Defined.

Lemma mutators_keep_other_answers_witness :
  fst (run (PathStore AbsentAsNil) (@AuthenticateUser RefModels "u@x.com" "secret1")
         (@serve RefModels (PathStore AbsentAsNil) (ReqSetUserDongle "u@x.com" "token-A")
            (confirmed_account AbsentAsNil)))
  = fst (run (PathStore AbsentAsNil) (@AuthenticateUser RefModels "u@x.com" "secret1")
           (confirmed_account AbsentAsNil)).
Proof.
  assert (Hl : @load RefModels (PathStore AbsentAsNil) "u@x.com" (confirmed_account AbsentAsNil)
               = Ok (mkUser "u@x.com" "$ref$secret1" true EmptyString))
    by (vm_compute; reflexivity).
  assert (Hrun : run (PathStore AbsentAsNil) (@SetUserDongle RefModels "u@x.com" "token-A")
                   (confirmed_account AbsentAsNil)
                 = (None, @serve RefModels (PathStore AbsentAsNil)
                            (ReqSetUserDongle "u@x.com" "token-A")
                            (confirmed_account AbsentAsNil)))
    by (vm_compute; reflexivity).
  exact (proj1 (proj2 (@mutators_keep_other_answers RefModels RefModels_laws
                         (PathStore AbsentAsNil) (PathStore_laws AbsentAsNil)
                         "u@x.com" (confirmed_account AbsentAsNil) _ Hl eq_refl))
           "token-A" _ Hrun "secret1").
Defined.

Lemma SetUserDongle_last_wins_witness :
  run (PathStore AbsentAsNil) (@GetUserDongle RefModels "u@x.com")
    (@serve_all RefModels (PathStore AbsentAsNil)
       [ReqSetUserDongle "u@x.com" "token-A"; ReqSetUserDongle "u@x.com" "token-B"]
       (confirmed_account AbsentAsNil))
  = (Ok "token-B",
     @serve_all RefModels (PathStore AbsentAsNil)
       [ReqSetUserDongle "u@x.com" "token-A"; ReqSetUserDongle "u@x.com" "token-B"]
       (confirmed_account AbsentAsNil)).
Proof.
  apply (@SetUserDongle_last_wins RefModels RefModels_laws (PathStore AbsentAsNil)
           (PathStore_laws AbsentAsNil) "u@x.com" "token-A" "token-B"
           (confirmed_account AbsentAsNil)
           (@serve RefModels (PathStore AbsentAsNil) (ReqSetUserDongle "u@x.com" "token-A")
              (confirmed_account AbsentAsNil))
           _ (mkUser "u@x.com" "$ref$secret1" true EmptyString)).
  - vm_compute. reflexivity.
  - reflexivity.
  - vm_compute. reflexivity.
  - vm_compute. reflexivity.
Defined.

Lemma records_stay_filed_witness :
  @well_formed RefModels (PathStore AbsentAsErrNotFound)
    (@serve_all RefModels (PathStore AbsentAsErrNotFound)
       [ReqCreateUser "u@x.com" "secret1"; ReqConfirmUser "u@x.com";
        ReqSetUserDongle "u@x.com" "token-A"; ReqDeleteUser "u@x.com";
        ReqCreateUser "u@x.com" "secret2"] ∅).
Proof.
  apply (@records_stay_filed RefModels RefModels_laws (PathStore AbsentAsErrNotFound)
           (PathStore_laws AbsentAsErrNotFound)).
  apply empty_well_formed.
Defined.

Lemma GetUser_outcomes_witness :
  fst (run (PathStore AbsentAsNil) (@GetUser RefModels "u@x.com")
         (unreadable_store AbsentAsNil)) = Err (Errorf "invalid user data format") /\
  fst (run (PathStore AbsentAsNil) (@GetUser RefModels "a@b.co") ∅)
    = Err (Errorf "user not found").
Proof.
  split.
  - apply (proj1 (proj2 (@GetUser_outcomes RefModels (PathStore AbsentAsNil) "u@x.com"
                           (unreadable_store AbsentAsNil)))
             (mkItem (getUserPath "u@x.com") (VOther "blob")) "blob").
    + vm_compute. reflexivity.
    + reflexivity.
  - apply (proj1 (@GetUser_outcomes RefModels (PathStore AbsentAsNil) "a@b.co" ∅)).
    reflexivity.
Defined.

Lemma UpdatePassword_rotates_witness :
  run (PathStore AbsentAsNil) (@AuthenticateUser RefModels "u@x.com" "secret1")
    (@serve RefModels (PathStore AbsentAsNil) (ReqUpdatePassword "u@x.com" "secret2")
       (confirmed_account AbsentAsNil))
  = (Ok false,
     @serve RefModels (PathStore AbsentAsNil) (ReqUpdatePassword "u@x.com" "secret2")
       (confirmed_account AbsentAsNil)).
Proof.
  apply (@UpdatePassword_rotates RefModels RefModels_laws (PathStore AbsentAsNil)
           (PathStore_laws AbsentAsNil) "u@x.com" "secret1" "secret2"
           (confirmed_account AbsentAsNil) _
           (mkUser "u@x.com" "$ref$secret1" true EmptyString)).
  - vm_compute. reflexivity.
  - reflexivity.
  - reflexivity.
  - discriminate.
  - vm_compute. reflexivity.
Defined.

Lemma DeleteUser_then_absent_witness :
  run (PathStore AbsentAsNil) (UserExists "u@x.com")
    (@serve RefModels (PathStore AbsentAsNil) (ReqDeleteUser "u@x.com")
       (confirmed_account AbsentAsNil))
  = (Ok false,
     @serve RefModels (PathStore AbsentAsNil) (ReqDeleteUser "u@x.com")
       (confirmed_account AbsentAsNil)).
Proof.
  apply (@DeleteUser_then_absent RefModels (PathStore AbsentAsNil)
           (PathStore_laws AbsentAsNil) "u@x.com" (confirmed_account AbsentAsNil)).
  vm_compute. reflexivity.
Defined.

Lemma mutators_change_one_field_witness :
  @load RefModels (PathStore AbsentAsNil) "u@x.com"
    (@serve RefModels (PathStore AbsentAsNil) (ReqSetUserDongle "u@x.com" "token-A")
       (fresh_account AbsentAsNil))
  = Ok (mkUser "u@x.com" "$ref$secret1" false "token-A").
Proof.
  assert (Hl : @load RefModels (PathStore AbsentAsNil) "u@x.com" (fresh_account AbsentAsNil)
               = Ok (mkUser "u@x.com" "$ref$secret1" false EmptyString))
    by (vm_compute; reflexivity).
  assert (Hrun : run (PathStore AbsentAsNil) (@SetUserDongle RefModels "u@x.com" "token-A")
                   (fresh_account AbsentAsNil)
                 = (None, @serve RefModels (PathStore AbsentAsNil)
                            (ReqSetUserDongle "u@x.com" "token-A")
                            (fresh_account AbsentAsNil)))
    by (vm_compute; reflexivity).
  exact (proj1 (proj1 (proj2 (@mutators_change_one_field RefModels RefModels_laws
                                (PathStore AbsentAsNil) (PathStore_laws AbsentAsNil)
                                "u@x.com" (fresh_account AbsentAsNil) _ Hl eq_refl))
                  "token-A" _ Hrun)).
Defined.

(** ** Requests whose calls interleave *)

(** Taking one call of a program changes nothing of what the program
    goes on to return: [step] and [run] agree. *)
Lemma step_run (S : Storage) {A : Type} (m : prog A) (s : state S) :
  run S (fst (step S m s)) (snd (step S m s)) = run S m s.
Proof.
  destruct m as [a | R c k]; simpl; [reflexivity|].
  destruct (handle S c s) as [r s1]. reflexivity.
Qed.

(** C8 as stated fails, in two ways.  With two workers: [SetUserDongle]
    reads the unconfirmed record, [ConfirmUser] then runs whole and the
    stored flag is true, and the write of [SetUserDongle] puts the
    record it read back, flag false, both methods returning nil.  And
    with one worker on a store where the file of "a@x.com" holds a
    record carrying the email "b@y.com": [SetUserDongle] on "a@x.com"
    succeeds and replaces the confirmed record of "b@y.com" by that
    unconfirmed one. *)
Lemma confirmed_flag_is_reset :
  (let S := PathStore AbsentAsNil in
   let '(m1, m2, s_mid) :=
     interleave S [true; false; false]
       (@SetUserDongle RefModels "u@x.com" "token-A") (@ConfirmUser RefModels "u@x.com")
       (fresh_account AbsentAsNil) in
   let '(m1', s_end) := step S m1 s_mid in
   @load RefModels S "u@x.com" s_mid = Ok (mkUser "u@x.com" "$ref$secret1" true EmptyString) /\
   m2 = Ret None /\ m1' = Ret None /\
   @load RefModels S "u@x.com" s_end = Ok (mkUser "u@x.com" "$ref$secret1" false "token-A")) /\
  (let S := PathStore AbsentAsNil in
   let s := @serve RefModels S (ReqConfirmUser "b@y.com") (misfiled_store AbsentAsNil) in
   @load RefModels S "b@y.com" s = Ok (mkUser "b@y.com" "$ref$secret1" true EmptyString) /\
   fst (run S (@SetUserDongle RefModels "a@x.com" "token-A") s) = None /\
   @load RefModels S "b@y.com" (@serve RefModels S (ReqSetUserDongle "a@x.com" "token-A") s)
     = Ok (mkUser "b@y.com" "$ref$secret0" false "token-A")).
Proof. vm_compute. repeat split; reflexivity. Qed.
